(** * Preprocessing.py: the HICP sheet cleaner, summary loader and
      sheet classifier, embedded and verified.

    The Python module is embedded shallowly.  Python strings are Rocq
    strings whose characters are read as the code points 0..255; a float64
    is a [spec_float] of the Standard Library (NaN and the infinities
    included); exceptions are values of [exn] carried by the [result]
    monad.  A [DataFrame] is a list of column labels with row-major cells.
    The scalar conversions that pandas and Python supply (date parsing,
    string to float, [str] of a float) are not part of the module: they are
    the fields of the record [Pandas], over which every definition and
    theorem about [cleaning_dataframe] is generic.

    The frame operations follow pandas 2 on object columns: [astype(str)]
    turns a missing value into a text, [melt] refuses a frame that already
    has a column named like its value column, [dropna] removes NaN and NaT
    and nothing else.  [pd.to_datetime] guesses a format from the first
    label that is neither null nor one of the words now and today, and
    converts every label under it; when it can guess none it converts each
    label on its own.  Dates are kept at day resolution: times of day and
    time zones are not modelled. *)

From Stdlib Require Import String Ascii ZArith Bool Arith Lia List.
From Stdlib Require Import Floats.SpecFloat DecimalString Sorting.Sorted.
From Stdlib Require Import DecimalPos DecimalN.
Import ListNotations.

Local Open Scope string_scope.
Local Open Scope list_scope.

(** ** Exceptions and the result monad *)

(** The exceptions that the module lets through.  [DateParseError] is the
    error of pandas for a text that cannot be read as a date, a subclass of
    ValueError; [ValueError] stands for the other ValueErrors. *)
Inductive exn : Type :=
| IndexError
| KeyError (label : string)
| ValueError
| AttributeError
| DateParseError (text : string).

Inductive result (A : Type) : Type :=
| Ok (a : A)
| Raise (e : exn).

Arguments Ok {A} a.
Arguments Raise {A} e.

Definition bind {A B : Type} (r : result A) (k : A -> result B) : result B :=
  match r with
  | Ok a => k a
  | Raise e => Raise e
  end.

Notation "x <- r ;; k" := (bind r (fun x => k))
  (at level 61, r at next level, right associativity).

(** [try: body except Exception: handler] *)
Definition try_except {A : Type} (body : result A) (handler : A) : A :=
  match body with
  | Ok a => a
  | Raise _ => handler
  end.

Fixpoint mapM {A B : Type} (f : A -> result B) (l : list A) : result (list B) :=
  match l with
  | [] => Ok []
  | x :: l' => y <- f x ;; ys <- mapM f l' ;; Ok (y :: ys)
  end.

(** ** Python built-ins used by the classifier *)

(** [str.isspace] on the code points 0..255: TAB, LF, VT, FF, CR, the four
    separators FS, GS, RS, US, the space, NEL and the no-break space. *)
Definition isspace (c : ascii) : bool :=
  let n := nat_of_ascii c in
  (((9 <=? n) && (n <=? 13)) || ((28 <=? n) && (n <=? 32))
  || (n =? 133) || (n =? 160))%nat.

(** [str.split()] with no separator: the maximal runs of characters that are
    not whitespace, left to right.  [tok] is the run being read, reversed. *)
Fixpoint split_from (s : string) (tok : list ascii) : list string :=
  match s with
  | EmptyString =>
      match tok with
      | [] => []
      | _ => [string_of_list_ascii (rev tok)]
      end
  | String c s' =>
      if isspace c then
        match tok with
        | [] => split_from s' []
        | _ => string_of_list_ascii (rev tok) :: split_from s' []
        end
      else split_from s' (c :: tok)
  end.

Definition str_split (s : string) : list string := split_from s [].

(** [l[-1]] *)
Fixpoint last_item {A : Type} (l : list A) : result A :=
  match l with
  | [] => Raise IndexError
  | [x] => Ok x
  | _ :: l' => last_item l'
  end.

Definition digit_value (c : ascii) : option Z :=
  let n := nat_of_ascii c in
  if ((48 <=? n) && (n <=? 57))%nat then Some (Z.of_nat (n - 48)) else None.

(** The digits of a decimal literal: one or more digits, single underscores
    allowed between two digits.  [after_digit] tells whether the character
    before was a digit. *)
Fixpoint int_digits (s : string) (acc : Z) (after_digit : bool) : result Z :=
  match s with
  | EmptyString => if after_digit then Ok acc else Raise ValueError
  | String c s' =>
      match digit_value c with
      | Some d => int_digits s' (10 * acc + d) true
      | None =>
          if Ascii.eqb c "_"%char && after_digit
          then int_digits s' acc false
          else Raise ValueError
      end
  end.

(** The number of decimal digits in [s]. *)
Fixpoint count_digits (s : string) : Z :=
  match s with
  | EmptyString => 0
  | String c s' =>
      match digit_value c with
      | Some _ => 1 + count_digits s'
      | None => count_digits s'
      end
  end.

(** [sys.int_info.default_max_str_digits]: [int] refuses longer numerals. *)
Definition max_str_digits : Z := 4300.

(** [int(s)] in base 10 for a string without surrounding whitespace (a token
    of [str_split] has none): an optional sign, then the digits. *)
Definition int_of_str (s : string) : result Z :=
  if (max_str_digits <? count_digits s)%Z then Raise ValueError
  else
    match s with
    | String "-"%char s' => n <- int_digits s' 0 false ;; Ok (- n)%Z
    | String "+"%char s' => int_digits s' 0 false
    | _ => int_digits s 0 false
    end.

(** [x in range(start, stop)] *)
Definition in_range (start stop : Z) (x : Z) : bool :=
  (start <=? x)%Z && (x <? stop)%Z.

(** ** Sheet index ranges per main category *)

Definition SHEETS_INDEX_FOOD : Z -> bool := in_range 1 76.
Definition SHEETS_INDEX_HOUSING_ENERGY : Z -> bool := in_range 76 109.
Definition SHEETS_INDEX_TRANSPORT : Z -> bool := in_range 109 151.

Definition map_sheet_to_category (sheet_name : string) : string :=
  try_except
    (tok <- last_item (str_split sheet_name) ;;
     idx <- int_of_str tok ;;
     Ok (if SHEETS_INDEX_FOOD idx then "Food"
         else if SHEETS_INDEX_HOUSING_ENERGY idx then "Housing & Energy"
         else if SHEETS_INDEX_TRANSPORT idx then "Transport"
         else "Other"))
    "Other".

(** ** pandas values: cells, frames and the scalar conversions *)

(** A [datetime64] value at day resolution, or the null date [NaT]. *)
Inductive datetime : Type :=
| Timestamp (year month day : Z)
| NaT.

(** What a cell of an object column holds: a text, a float64 (an empty
    spreadsheet cell is the float NaN) or a date. *)
Inductive cell : Type :=
| CStr (s : string)
| CFloat (f : spec_float)
| CTime (t : datetime).

(** [np.nan] *)
Definition nan : cell := CFloat S754_nan.

Definition is_nan (f : spec_float) : bool :=
  match f with
  | S754_nan => true
  | _ => false
  end.

Definition is_nat (t : datetime) : bool :=
  match t with
  | NaT => true
  | Timestamp _ _ _ => false
  end.

(** [pd.isna] on a cell *)
Definition isna (c : cell) : bool :=
  match c with
  | CStr _ => false
  | CFloat f => is_nan f
  | CTime t => is_nat t
  end.

(** [cell == s] for a string [s] *)
Definition cell_is_str (s : string) (c : cell) : bool :=
  match c with
  | CStr s' => String.eqb s' s
  | _ => false
  end.

(** A frame: the column labels, then the rows, every row listing its cells in
    column order.  The row index is not modelled, so [reset_index] is the
    identity on this type. *)
Record DataFrame : Type := {
  columns : list string;
  data : list (list cell)
}.

(** *** Labels as dates

    [pd.to_datetime] takes the empty text and the spellings [nat_strings] for
    the null date, under every format. *)

Definition nat_strings : list string := ["NaT"; "nat"; "NAT"; "nan"; "NaN"; "NAN"].

Definition is_null_label (s : string) : bool :=
  String.eqb s "" || existsb (String.eqb s) nat_strings.

(** The labels that the guessing of a format passes over: the null ones and
    the words now and today. *)
Definition skipped_label (s : string) : bool :=
  is_null_label s || String.eqb s "now" || String.eqb s "today".

Fixpoint digits_value (s : string) (acc : Z) : option Z :=
  match s with
  | EmptyString => Some acc
  | String c s' =>
      match digit_value c with
      | Some d => digits_value s' (10 * acc + d)
      | None => None
      end
  end.

Definition is_leap (y : Z) : bool :=
  ((y mod 4 =? 0) && negb (y mod 100 =? 0) || (y mod 400 =? 0))%Z.

Definition days_in_month (y m : Z) : Z :=
  (if m =? 2 then (if is_leap y then 29 else 28)
   else if (m =? 4) || (m =? 6) || (m =? 9) || (m =? 11) then 30
   else 31)%Z.

(** A calendar date in the years that a [Timestamp] covers in full. *)
Definition make_date (y m d : Z) : option datetime :=
  if ((1678 <=? y) && (y <=? 2261) && (1 <=? m) && (m <=? 12)
      && (1 <=? d) && (d <=? days_in_month y m))%Z
  then Some (Timestamp y m d)
  else None.

Definition two_digits_value (c1 c2 : ascii) : option Z :=
  match digit_value c1, digit_value c2 with
  | Some a, Some b => Some (10 * a + b)%Z
  | _, _ => None
  end.

(** The ISO format of a label: [%Y-%m] for a year and a month, [%Y-%m-%d]
    for a calendar date, four digits for the year and two for the month and
    the day. *)
Definition iso_format (s : string) : option string :=
  match s with
  | String y1 (String y2 (String y3 (String y4 (String dash
      (String m1 (String m2 rest)))))) =>
      match two_digits_value y1 y2, two_digits_value y3 y4, two_digits_value m1 m2 with
      | Some century, Some year, Some month =>
          if Ascii.eqb dash "-"%char then
            match rest with
            | EmptyString =>
                match make_date (100 * century + year) month 1 with
                | Some _ => Some "%Y-%m"
                | None => None
                end
            | String dash' (String d1 (String d2 EmptyString)) =>
                match two_digits_value d1 d2 with
                | Some day =>
                    if Ascii.eqb dash' "-"%char then
                      match make_date (100 * century + year) month day with
                      | Some _ => Some "%Y-%m-%d"
                      | None => None
                      end
                    else None
                | None => None
                end
            | _ => None
            end
          else None
      | _, _, _ => None
      end
  | _ => None
  end.

(** The conversions of single values that the module takes from pandas and
    from Python.  [to_datetime_scalar] is the conversion of a label on its
    own, [None] where it raises; [guess_datetime_format] is the format that
    pandas guesses from a label, if any, and [strptime] the conversion of a
    label under a format, [None] where the label does not match it;
    [floatify] is [None] where a text is no number; [time_to_numeric] is
    what [pd.to_numeric] makes of a date; [str_of_float] and [str_of_time]
    are [str].  Two facts about the guessing are part of the interface: no
    format is guessed from a label without a digit, for a format needs a
    year; and under the format guessed from an ISO label, an ISO label of
    the same format is converted as on its own. *)
Record Pandas : Type := {
  to_datetime_scalar : string -> option datetime;
  floatify : string -> option spec_float;
  time_to_numeric : datetime -> spec_float;
  str_of_float : spec_float -> string;
  str_of_time : datetime -> string;
  guess_datetime_format : string -> option string;
  strptime : string -> string -> option datetime;
  guess_needs_digit :
    forall s, count_digits s = 0%Z -> guess_datetime_format s = None;
  strptime_iso :
    forall s s' fmt iso,
      iso_format s = Some iso -> iso_format s' = Some iso ->
      guess_datetime_format s = Some fmt ->
      strptime fmt s' = to_datetime_scalar s'
}.

(** *** Frame operations *)

(** [df.iloc[:, idxs]]: out of bounds positions raise. *)
Definition iloc_columns (idxs : list nat) (df : DataFrame) : result DataFrame :=
  if forallb (fun i => i <? length (columns df))%nat idxs
  then Ok {| columns := map (fun i => nth i (columns df) "") idxs;
             data := map (fun row => map (fun i => nth i row nan) idxs) (data df) |}
  else Raise IndexError.

(** [df.replace(to_replace, value)]: whole-cell matches only. *)
Definition replace (to_replace : string) (value : cell) (df : DataFrame) : DataFrame :=
  {| columns := columns df;
     data := map (map (fun c => if cell_is_str to_replace c then value else c)) (data df) |}.

Definition reset_index (df : DataFrame) : DataFrame := df.

(** A Python [dict] from strings to strings, in insertion order. *)
Definition dict : Type := list (string * string).

Definition keys (d : dict) : list string := map fst d.

Fixpoint dict_get (d : dict) (k : string) : option string :=
  match d with
  | [] => None
  | (k', v) :: d' => if String.eqb k' k then Some v else dict_get d' k
  end.

(** [df.rename(columns=mapper)]: labels absent from the mapper are kept. *)
Definition rename_label (mapper : dict) (c : string) : string :=
  match dict_get mapper c with
  | Some v => v
  | None => c
  end.

Definition rename (mapper : dict) (df : DataFrame) : DataFrame :=
  {| columns := map (rename_label mapper) (columns df);
     data := data df |}.

(** The positions at which [label] occurs among [cols]. *)
Definition get_indexer (label : string) (cols : list string) : list nat :=
  filter (fun i => String.eqb (nth i cols "") label) (seq 0 (length cols)).

(** The values of the column at position [j], top to bottom. *)
Definition column (j : nat) (df : DataFrame) : list cell :=
  map (fun row => nth j row nan) (data df).

(** [np.tile(l, n)] and [Index.repeat(n)] *)
Definition tile {A : Type} (l : list A) (n : nat) : list A := concat (repeat l n).

Definition repeat_each {A : Type} (l : list A) (n : nat) : list A :=
  flat_map (fun x => repeat x n) l.

(** The three columns that [melt] builds. *)
Record Melted : Type := {
  id_values : list cell;
  variable : list string;
  value : list cell
}.

(** [frame.melt(id_vars=id_var, var_name=_, value_name=value_name)] with one
    identifier column.  [value_name] must not be a label of the frame; the
    identifier must be one; popping a label that occurs twice yields a frame
    where a column is expected, and the call fails.  The identifier values
    are tiled once per remaining column, the remaining columns are laid end
    to end, and each of their labels is repeated once per row. *)
Definition melt (id_var value_name : string) (frame : DataFrame) : result Melted :=
  if existsb (String.eqb value_name) (columns frame) then Raise ValueError
  else
    match get_indexer id_var (columns frame) with
    | [] => Raise (KeyError id_var)
    | [k] =>
        let K := length (columns frame) in
        let num_rows := length (data frame) in
        let num_cols_adjusted := (K - 1)%nat in
        let rest := filter (fun j => negb (j =? k)%nat) (seq 0 K) in
        Ok {| id_values := tile (column k frame) num_cols_adjusted;
              variable := repeat_each (map (fun j => nth j (columns frame) "") rest) num_rows;
              value := concat (map (fun j => column j frame) rest) |}
    | _ => Raise AttributeError
    end.

(** [df.dropna()] on a frame of cells. *)
Definition dropna_frame (df : DataFrame) : DataFrame :=
  {| columns := columns df;
     data := filter (fun row => negb (existsb isna row)) (data df) |}.

(** ** The cleaned table *)

Record Observation : Type := {
  Country : string;
  Date : datetime;
  HICP : spec_float
}.

(** A row is incomplete when one of its fields is null.  [Country] has
    become a Python string by then and is never null. *)
Definition incomplete (o : Observation) : bool :=
  is_nat (Date o) || is_nan (HICP o).

(** [df.dropna(inplace=True)] on the typed table *)
Definition dropna (rows : list Observation) : list Observation :=
  filter (fun o => negb (incomplete o)) rows.

Fixpoint zip3 (cs : list string) (ds : list datetime) (hs : list spec_float)
  : list Observation :=
  match cs, ds, hs with
  | c :: cs', d :: ds', h :: hs' =>
      {| Country := c; Date := d; HICP := h |} :: zip3 cs' ds' hs'
  | _, _, _ => []
  end.

Section Cleaning.

Variable pd : Pandas.

(** [Series.astype(str)] on one cell: a missing value becomes the text
    that [str] gives for it. *)
Definition astype_str (c : cell) : string :=
  match c with
  | CStr s => s
  | CFloat f => str_of_float pd f
  | CTime t => str_of_time pd t
  end.

(** The format under which [pd.to_datetime] converts a column: the one
    guessed from the first label that is not passed over, if there is one. *)
Definition column_format (labels : list string) : option string :=
  match find (fun s => negb (skipped_label s)) labels with
  | Some first => guess_datetime_format pd first
  | None => None
  end.

(** One label of a column.  A null label is the null date.  Under a guessed
    format a label that does not match it raises a ValueError; when no
    format was guessed each label is converted on its own, and one that is
    no date raises a date parsing error. *)
Definition to_datetime_label (format : option string) (s : string) : result datetime :=
  if is_null_label s then Ok NaT
  else
    match format with
    | Some fmt =>
        match strptime pd fmt s with
        | Some t => Ok t
        | None => Raise ValueError
        end
    | None =>
        match to_datetime_scalar pd s with
        | Some t => Ok t
        | None => Raise (DateParseError s)
        end
    end.

(** [pd.to_datetime] on a column of labels: the first label that cannot be
    converted makes the whole call raise. *)
Definition to_datetime (labels : list string) : result (list datetime) :=
  mapM (to_datetime_label (column_format labels)) labels.

(** [pd.to_numeric(_, errors="coerce")] on one cell: a text that is no
    number becomes NaN, nothing raises. *)
Definition to_numeric (c : cell) : spec_float :=
  match c with
  | CStr s => match floatify pd s with
              | Some f => f
              | None => S754_nan
              end
  | CFloat f => f
  | CTime t => time_to_numeric pd t
  end.

Definition cleaning_dataframe (df : DataFrame) : result (list Observation) :=
  let n := length (columns df) in
  selected <- iloc_columns
                (0%nat :: filter (fun i => negb (i mod 2 =? 0)%nat) (seq 0 n)) df ;;
  let wide :=
    rename [("TIME", "Country")]
      (reset_index (replace "d" nan (replace ":" nan selected))) in
  long <- melt "Country" "HICP" wide ;;
  let country := map astype_str (id_values long) in
  date <- to_datetime (variable long) ;;
  let hicp := map to_numeric (value long) in
  Ok (dropna (zip3 country date hicp)).

End Cleaning.

(** ** The summary loader *)

(** [df[label]] *)
Definition getitem (label : string) (df : DataFrame) : result (list cell) :=
  match get_indexer label (columns df) with
  | [] => Raise (KeyError label)
  | [j] => Ok (column j df)
  | _ => Raise ValueError
  end.

(** [l[0]] *)
Definition first_item {A : Type} (l : list A) : result A :=
  match l with
  | [] => Raise IndexError
  | x :: _ => Ok x
  end.

(** The rows at which the boolean mask holds. *)
Fixpoint select_rows {A : Type} (mask : list bool) (rows : list A) : list A :=
  match mask, rows with
  | b :: mask', r :: rows' =>
      if b then r :: select_rows mask' rows' else select_rows mask' rows'
  | _, _ => []
  end.

(** [df.loc[mask, labels]]: a label that is no column raises. *)
Definition loc (mask : list bool) (labels : list string) (df : DataFrame)
  : result DataFrame :=
  idxs <- mapM (fun l => match get_indexer l (columns df) with
                         | [] => Raise (KeyError l)
                         | js => Ok js
                         end) labels ;;
  let js := concat idxs in
  Ok {| columns := map (fun j => nth j (columns df) "") js;
        data := map (fun row => map (fun j => nth j row nan) js)
                    (select_rows mask (data df)) |}.

(** [load_summary] after [pd.read_excel]: [df] is the sheet as read. *)
Definition load_summary (df : DataFrame) (columns_map : dict) : result DataFrame :=
  let cols_to_keep := keys columns_map in
  first <- first_item cols_to_keep ;;
  key_column <- getitem first df ;;
  let mask := map (fun c => negb (cell_is_str "Contents" c)) key_column in
  kept <- loc mask cols_to_keep df ;;
  Ok (rename columns_map (reset_index (dropna_frame kept))).

(** ** An instance of the conversions

    [sample_pandas] instantiates [Pandas] on the spellings that the sheets of
    the workbooks use, so that the cleaner can be evaluated on concrete
    sheets: ISO labels [YYYY-MM] and [YYYY-MM-DD] and the spellings of the
    null date parse, every other label is refused, and a format is guessed
    from the ISO labels only; a text is a number when it
    is an optionally signed run of digits or names an infinity or NaN.  pandas
    accepts more spellings than these; the theorems below do not depend on
    the instance. *)

Definition iso_to_datetime (s : string) : option datetime :=
  if String.eqb s "" || existsb (String.eqb s) nat_strings then Some NaT
  else
    let dash (i : nat) := match String.get i s with
                          | Some c => Ascii.eqb c "-"%char
                          | None => false
                          end in
    let field (i n : nat) := match substring i n s with
                             | EmptyString => None
                             | t => digits_value t 0
                             end in
    match String.length s with
    | 7%nat =>
        match field 0%nat 4%nat, field 5%nat 2%nat with
        | Some y, Some m => if dash 4%nat then make_date y m 1 else None
        | _, _ => None
        end
    | 10%nat =>
        match field 0%nat 4%nat, field 5%nat 2%nat, field 8%nat 2%nat with
        | Some y, Some m, Some d =>
            if dash 4%nat && dash 7%nat then make_date y m d else None
        | _, _, _ => None
        end
    | _ => None
    end.

(** The float64 nearest to [m * 2 ^ e], with the sign [neg]. *)
Definition float64 (neg : bool) (m : Z) (e : Z) : spec_float :=
  match m with
  | Zpos p => binary_round 53 1024 neg p e
  | _ => S754_zero neg
  end.

Definition plain_floatify (s : string) : option spec_float :=
  let unsigned (neg : bool) (t : string) :=
    if String.eqb t "inf" || String.eqb t "infinity" then Some (S754_infinity neg)
    else if String.eqb t "nan" then Some S754_nan
    else match t with
         | EmptyString => None
         | _ => match digits_value t 0 with
                | Some m => Some (float64 neg m 0)
                | None => None
                end
         end in
  match s with
  | String "-"%char t => unsigned true t
  | String "+"%char t => unsigned false t
  | _ => unsigned false s
  end.

Definition two_digits (z : Z) : string :=
  let d (k : Z) := String (ascii_of_nat (48 + Z.to_nat k)) EmptyString in
  d ((z / 10) mod 10)%Z ++ d (z mod 10)%Z.

Definition four_digits (z : Z) : string :=
  two_digits (z / 100) ++ two_digits (z mod 100).

Definition plain_str_of_time (t : datetime) : string :=
  match t with
  | NaT => "NaT"
  | Timestamp y m d =>
      four_digits y ++ "-" ++ two_digits m ++ "-" ++ two_digits d ++ " 00:00:00"
  end.

(** The decimal digits of a natural number. *)
Definition decimal (z : Z) : string :=
  NilZero.string_of_uint (N.to_uint (Z.to_N z)).

Fixpoint zeros (n : nat) : string :=
  match n with
  | O => EmptyString
  | S n' => String "0"%char (zeros n')
  end.

Fixpoint strip_zeros (rev_digits : list ascii) : list ascii :=
  match rev_digits with
  | c :: l => if Ascii.eqb c "0"%char then strip_zeros l else rev_digits
  | [] => []
  end.

(** The exact decimal expansion of [m * 2 ^ e], with at least one digit
    after the point. *)
Definition expand (m : positive) (e : Z) : string :=
  match e with
  | Zneg k =>
      let scale := (10 ^ Zpos k)%Z in
      let num := (Zpos m * 5 ^ Zpos k)%Z in
      let frac := decimal (num mod scale) in
      let padded := (zeros (Pos.to_nat k - String.length frac) ++ frac)%string in
      let kept := rev (strip_zeros (rev (list_ascii_of_string padded))) in
      decimal (num / scale) ++ "." ++
      match kept with
      | [] => "0"
      | _ => string_of_list_ascii kept
      end
  | _ => decimal (Zpos m * 2 ^ e) ++ ".0"
  end.

(** [str] of a float: exact on NaN, the infinities and the zeros; a finite
    float is written by its exact decimal expansion, which is what Python
    prints for the integers below 10^16 and for short binary fractions such
    as 99.5. *)
Definition plain_str_of_float (f : spec_float) : string :=
  match f with
  | S754_nan => "nan"
  | S754_infinity false => "inf"
  | S754_infinity true => "-inf"
  | S754_zero false => "0.0"
  | S754_zero true => "-0.0"
  | S754_finite neg m e => (if neg then "-" else "") ++ expand m e
  end.

(** A label under a format: the ISO labels of that format. *)
Definition iso_strptime (fmt s : string) : option datetime :=
  match iso_format s with
  | Some iso => if String.eqb iso fmt then iso_to_datetime s else None
  | None => None
  end.

Definition count_digits_nonneg (s : string) : (0 <= count_digits s)%Z.
Proof.
  induction s as [|c s IH]; cbn [count_digits]; [lia|].
  destruct (digit_value c); lia.
Qed.

Definition iso_format_needs_digit (s : string) :
  count_digits s = 0%Z -> iso_format s = None.
Proof.
  destruct s as [|y1 s]; [reflexivity|].
  cbn [count_digits]. intros H.
  destruct (digit_value y1) eqn:E.
  - pose proof (count_digits_nonneg s). lia.
  - unfold iso_format, two_digits_value. rewrite E.
    repeat (destruct s as [|? s]; try reflexivity).
Qed.

Definition iso_strptime_iso (s s' fmt iso : string) :
  iso_format s = Some iso -> iso_format s' = Some iso ->
  iso_format s = Some fmt ->
  iso_strptime fmt s' = iso_to_datetime s'.
Proof.
  intros H1 H2 H3. unfold iso_strptime. rewrite H2.
  assert (iso = fmt) by congruence. subst. now rewrite String.eqb_refl.
Qed.

Definition sample_pandas : Pandas :=
  {| to_datetime_scalar := iso_to_datetime;
     floatify := plain_floatify;
     time_to_numeric := fun _ => S754_nan;
     str_of_float := plain_str_of_float;
     str_of_time := plain_str_of_time;
     guess_datetime_format := iso_format;
     strptime := iso_strptime;
     guess_needs_digit := iso_format_needs_digit;
     strptime_iso := iso_strptime_iso |}.

(** ** Sheets used in the examples *)

Definition f100_0 : spec_float := Eval cbv in float64 false 100 0.
Definition f99_5 : spec_float := Eval cbv in float64 false 199 (-1).

Definition scenario_sheet : DataFrame :=
  {| columns := ["TIME"; "2020-01"; "mergeArtifact"; "2020-02"; "mergeArtifact"];
     data := [ [CStr "FR"; CFloat f100_0; CStr "x"; CStr ":"; CStr "y"];
               [CStr "DE"; CStr "d"; CStr "x"; CFloat f99_5; CStr "y"] ] |}.

(** A sheet whose second period column is a total, not a period. *)
Definition total_sheet : DataFrame :=
  {| columns := ["TIME"; "2020-01"; "Unnamed: 2"; "Total"; "Unnamed: 4"];
     data := [ [CStr "FR"; CFloat f100_0; CStr "x"; CFloat f99_5; CStr "y"] ] |}.

(** A sheet whose period labels are a month, a day and a total. *)
Definition mixed_labels_sheet : DataFrame :=
  {| columns := ["TIME"; "2020-01"; "Unnamed: 2"; "2020-02-15"; "Unnamed: 4";
                 "Total"; "Unnamed: 6"];
     data := [ [CStr "FR"; CFloat f100_0; CStr "x"; CFloat f99_5; CStr "y";
                CFloat f100_0; CStr "z"] ] |}.

(** A sheet with an infinite value and with a text that names one. *)
Definition inf_sheet : DataFrame :=
  {| columns := ["TIME"; "2020-01"; "Unnamed: 2"];
     data := [ [CStr "FR"; CFloat (S754_infinity false); CStr "x"];
               [CStr "DE"; CStr "-inf"; CStr "x"] ] |}.

(** A sheet whose first column is not called TIME. *)
Definition geo_sheet : DataFrame :=
  {| columns := ["GEO"; "2020-01"; "Unnamed: 2"];
     data := [ [CStr "FR"; CFloat f100_0; CStr "x"] ] |}.

Definition fr_2020_01 : Observation :=
  {| Country := "FR"; Date := Timestamp 2020 1 1; HICP := f100_0 |}.

Definition de_2020_02 : Observation :=
  {| Country := "DE"; Date := Timestamp 2020 2 1; HICP := f99_5 |}.

(** A summary sheet as read: a title row, two complete entries and one
    entry without its base period. *)
Definition summary_sheet : DataFrame :=
  {| columns := ["Unnamed: 0"; "Unnamed: 1"; "Unnamed: 2"; "Unnamed: 3"; "Unnamed: 4"];
     data := [ [nan; CStr "Contents"; nan; nan; nan];
               [nan; CStr "Sheet 1"; nan; CStr "2015=100"; CStr "All-items HICP"];
               [nan; CStr "Sheet 2"; nan; nan; CStr "Food"];
               [nan; CStr "Sheet 3"; nan; CStr "2015=100"; CStr "Bread and cereals"] ] |}.

(** The [columns_map] of the main and of the detailed loader. *)
Definition main_columns_map : dict :=
  [("Unnamed: 1", "sheet_name"); ("Unnamed: 3", "base"); ("Unnamed: 4", "description")].

(** ** Notions used to state the properties *)

(** Every character of [s] satisfies [p]. *)
Fixpoint all_chars (p : ascii -> bool) (s : string) : bool :=
  match s with
  | EmptyString => true
  | String c s' => p c && all_chars p s'
  end.

Definition blank (s : string) : Prop := all_chars isspace s = true.

Definition solid (s : string) : Prop :=
  s <> EmptyString /\ all_chars (fun c => negb (isspace c)) s = true.

(** [tok] is the trailing whitespace-delimited token of [s]: it has no
    whitespace, only whitespace follows it, and it starts [s] or follows a
    whitespace character. *)
Definition trailing_token (s tok : string) : Prop :=
  solid tok /\
  exists post, blank post /\
    (s = (tok ++ post)%string \/
     exists pre sp, isspace sp = true /\ s = (pre ++ String sp (tok ++ post))%string).

(** What [split_from] does at a whitespace character or at the end. *)
Definition flush (tok : list ascii) : list string :=
  match tok with
  | [] => []
  | _ => [string_of_list_ascii (rev tok)]
  end.

(** The category that an index falls in, by the bounds of the ranges. *)
Definition category_of_index (idx : Z) : string :=
  if (1 <=? idx)%Z && (idx <? 76)%Z then "Food"
  else if (76 <=? idx)%Z && (idx <? 109)%Z then "Housing & Energy"
  else if (109 <=? idx)%Z && (idx <? 151)%Z then "Transport"
  else "Other".

(** The positions that the column selection keeps: the first column, then
    the columns at odd positions. *)
Definition retained (df : DataFrame) : list nat :=
  0%nat :: filter (fun i => negb (i mod 2 =? 0)%nat) (seq 0 (length (columns df))).

(** The labels of the retained columns after the renaming. *)
Definition header (df : DataFrame) : list string :=
  map (fun i => rename_label [("TIME", "Country")] (nth i (columns df) "")) (retained df).

(** The retained columns other than the one at position [p] of [retained],
    left to right: the period columns when [p] is where [Country] is. *)
Definition periods (df : DataFrame) (p : nat) : list nat :=
  map (fun q => nth q (retained df) 0%nat)
      (filter (fun j => negb (j =? p)%nat) (seq 0 (length (retained df)))).

(** The original value is one of the two placeholders. *)
Definition is_sentinel (c : cell) : bool :=
  cell_is_str ":" c || cell_is_str "d" c.

(** A cell after the two replacements. *)
Definition scrub (c : cell) : cell :=
  if is_sentinel c then nan else c.

Section Observations.

Variable pd : Pandas.

(** The label [s] can be converted under the format of its column. *)
Definition parses (format : option string) (s : string) : bool :=
  match to_datetime_label pd format s with
  | Ok _ => true
  | Raise _ => false
  end.

(** The date of a label that can be converted. *)
Definition date_of (format : option string) (s : string) : datetime :=
  match to_datetime_label pd format s with
  | Ok t => t
  | Raise _ => NaT
  end.

(** The typed observation of the row [row] in the column [i], the country
    being read in the column [k] and the labels under [format]. *)
Definition observe (format : option string) (df : DataFrame) (k i : nat)
           (row : list cell) : Observation :=
  {| Country := astype_str pd (scrub (nth k row nan));
     Date := date_of format (nth i (columns df) "");
     HICP := to_numeric pd (scrub (nth i row nan)) |}.

(** The long table in column-major order: the columns [cols] left to right
    and, within a column, the rows top to bottom. *)
Definition long_table (format : option string) (df : DataFrame) (k : nat)
           (cols : list nat) : list Observation :=
  flat_map (fun i => map (observe format df k i) (data df)) cols.

(** The claim's three reasons for dropping the observation of [row] in the
    column [i]: a placeholder, a label whose date is null, a value that is
    no number. *)
Definition dropped (format : option string) (df : DataFrame) (i : nat)
           (row : list cell) : bool :=
  is_sentinel (nth i row nan)
  || is_nat (date_of format (nth i (columns df) ""))
  || is_nan (to_numeric pd (nth i row nan)).

End Observations.

(** The frame that [melt] receives: the retained columns under their
    renamed labels, placeholders replaced. *)
Definition wide (df : DataFrame) : DataFrame :=
  {| columns := header df;
     data := map (fun row => map (fun i => scrub (nth i row nan)) (retained df))
                 (data df) |}.

(** The labels that [melt] hands to [pd.to_datetime]: the label of each
    period column, once per row. *)
Definition melted_labels (df : DataFrame) (p : nat) : list string :=
  repeat_each (map (fun i => nth i (columns df) "") (periods df p))
              (length (data df)).

(** The headers are well formed, [Country] being at position [p] of the
    retained columns: there is a first column, no retained column is called
    [HICP], and exactly one is called [Country] after the renaming. *)
Definition well_formed_headers (df : DataFrame) (p : nat) : Prop :=
  columns df <> [] /\
  existsb (String.eqb "HICP") (header df) = false /\
  get_indexer "Country" (header df) = [p].

(** The format under which the labels of the sheet are converted. *)
Definition sheet_format (pd : Pandas) (df : DataFrame) (p : nat) : option string :=
  column_format pd (melted_labels df p).

(** The observations that the claim keeps: those of the rows that are not
    [dropped], column by column. *)
Definition kept_table (pd : Pandas) (format : option string) (df : DataFrame)
           (k : nat) (cols : list nat) : list Observation :=
  flat_map (fun i => map (observe pd format df k i)
                         (filter (fun row => negb (dropped pd format df i row)) (data df)))
           cols.

(** The period labels are ISO labels of the format [iso] that are dates. *)
Definition iso_labels (pd : Pandas) (iso : string) (labels : list string) : Prop :=
  forall s, In s labels ->
            iso_format s = Some iso /\ to_datetime_scalar pd s <> None.

(** The labels of the period columns, left to right. *)
Definition period_labels (df : DataFrame) (p : nat) : list string :=
  map (fun i => nth i (columns df) "") (periods df p).

(** Every label handed to [pd.to_datetime] can be converted under the
    format of the column: the one guessed from the first label that is not
    null or, when none is guessed, each label on its own. *)
Definition labels_convert (pd : Pandas) (df : DataFrame) (p : nat) : Prop :=
  forall s, In s (melted_labels df p) -> parses pd (sheet_format pd df p) s = true.

Definition is_finite (f : spec_float) : bool :=
  match f with
  | S754_zero _ | S754_finite _ _ _ => true
  | S754_infinity _ | S754_nan => false
  end.

(** A cleaned table read back as a frame: the shape of the cleaner's own
    output. *)
Definition as_frame (rows : list Observation) : DataFrame :=
  {| columns := ["Country"; "Date"; "HICP"];
     data := map (fun o => [CStr (Country o); CTime (Date o); CFloat (HICP o)]) rows |}.

(** The cell of [row] under the column called [k], NaN when the row has
    none. *)
Fixpoint lookup (cols : list string) (row : list cell) (k : string) : cell :=
  match cols, row with
  | c :: cols', x :: row' => if String.eqb c k then x else lookup cols' row' k
  | _, _ => nan
  end.

(** The summary rows that the claim keeps: the key column does not read
    Contents and no selected cell is missing. *)
Definition summary_row_kept (cols : list string) (first : string) (selected : list string)
           (row : list cell) : bool :=
  negb (cell_is_str "Contents" (lookup cols row first))
  && forallb (fun k => negb (isna (lookup cols row k))) selected.

(** The four categories, as the strings the classifier returns. *)
Definition categories : list string :=
  ["Food"; "Housing & Energy"; "Transport"; "Other"].

(** * The dataset loaders *)

(** The [header] argument of [pd.read_excel]: its default (the first row) or
    a list of row positions. *)
Inductive header_rows : Type :=
| HeaderDefault
| HeaderRows (rows : list nat).

(** A cleaned row with the [label] column that the loaders add. *)
Record Labelled : Type := {
  observed : Observation;
  label : cell
}.

(** A row of the detailed dataset: the [Category] column besides. *)
Record Item : Type := {
  labelled : Labelled;
  Category : string
}.

(** [pd.concat(frames, axis=0, ignore_index=True)] on frames that have the
    same columns: there must be a frame to concatenate. *)
Definition pd_concat {R : Type} (frames : list (list R)) : result (list R) :=
  match frames with
  | [] => Raise ValueError
  | _ => Ok (concat frames)
  end.

(** [map_sheet_to_category] on a value of the summary's [sheet_name]
    column: a value that is no string has no [split], and the handler of the
    classifier answers for it. *)
Definition category_of_sheet (sheet_name : cell) : string :=
  match sheet_name with
  | CStr s => map_sheet_to_category s
  | _ => "Other"
  end.

(** The [columns_map] of the weights loader. *)
Definition weights_columns_map : dict :=
  [("Unnamed: 1", "sheet_name"); ("Unnamed: 3", "description")].

(** [df[df["Category"] == category]] *)
Definition where_category (category : string) (items : list Item) : list Item :=
  filter (fun it => String.eqb (Category it) category) items.

(** What [load_all_data] returns, a field for each key of the dictionary. *)
Record AllData : Type := {
  df_all : list Labelled;
  df_all_items : list Item;
  df_food : list Item;
  df_housing_energy : list Item;
  df_transport : list Item;
  df_weights : list Labelled
}.

Section Loaders.

Variable pd : Pandas.

(** [pd.read_excel(path, sheet_name=_, header=_)], the spreadsheet reader. *)
Variable read_excel : string -> cell -> header_rows -> result DataFrame.

(** [load_summary] with its reading of the summary sheet. *)
Definition load_summary_from_file (file_path : string) (columns_map : dict)
           (summary_sheet : string) : result DataFrame :=
  df <- read_excel file_path (CStr summary_sheet) HeaderDefault ;;
  load_summary df columns_map.

(** The loop of a loader: each sheet is read and cleaned, its rows receive
    the columns that [decorate] adds, and its frame is appended. *)
Fixpoint load_sheets {R : Type} (file : string) (header : header_rows)
         (decorate : cell -> cell -> Observation -> R)
         (entries : list (cell * cell)) : result (list (list R)) :=
  match entries with
  | [] => Ok []
  | (sheet_name, description) :: entries' =>
      sheet_df <- read_excel file sheet_name header ;;
      clean_df <- cleaning_dataframe pd sheet_df ;;
      frames <- load_sheets file header decorate entries' ;;
      Ok (map (decorate sheet_name description) clean_df :: frames)
  end.

(** The steps that the three loaders share: the summary, its two columns as
    lists, the loop over their pairs, the concatenation. *)
Definition assemble {R : Type} (file : string) (columns_map : dict)
           (header : header_rows) (decorate : cell -> cell -> Observation -> R)
  : result (list R) :=
  summary <- load_summary_from_file file columns_map "Summary" ;;
  sheet_names <- getitem "sheet_name" summary ;;
  descriptions <- getitem "description" summary ;;
  all_frames <- load_sheets file header decorate (combine sheet_names descriptions) ;;
  pd_concat all_frames.

Definition with_label (sheet_name description : cell) (o : Observation) : Labelled :=
  {| observed := o; label := description |}.

Definition with_category (sheet_name description : cell) (o : Observation) : Item :=
  {| labelled := with_label sheet_name description o;
     Category := category_of_sheet sheet_name |}.

Definition load_main_dataset (file_main : string) : result (list Labelled) :=
  assemble file_main main_columns_map (HeaderRows [8]) with_label.

Definition load_detailed_dataset (file_details : string)
  : result (list Item * list Item * list Item * list Item) :=
  df_all_items <- assemble file_details main_columns_map (HeaderRows [8]) with_category ;;
  Ok (df_all_items,
      where_category "Food" df_all_items,
      where_category "Housing & Energy" df_all_items,
      where_category "Transport" df_all_items).

Definition load_weights_dataset (file_weights : string) : result (list Labelled) :=
  assemble file_weights weights_columns_map (HeaderRows [7]) with_label.

Definition load_all_data (file_main file_details file_weights : string)
  : result AllData :=
  all <- load_main_dataset file_main ;;
  details <- load_detailed_dataset file_details ;;
  weights <- load_weights_dataset file_weights ;;
  let '(all_items, food, housing_energy, transport) := details in
  Ok {| df_all := all;
        df_all_items := all_items;
        df_food := food;
        df_housing_energy := housing_energy;
        df_transport := transport;
        df_weights := weights |}.

(** A sheet read and cleaned. *)
Definition clean_sheet (file : string) (header : header_rows) (sheet_name : cell)
  : result (list Observation) :=
  sheet_df <- read_excel file sheet_name header ;;
  cleaning_dataframe pd sheet_df.

End Loaders.

(** The entries of a summary sheet as read: the name and the description of
    each row that the summary loader keeps, in the order of the sheet. *)
Definition summary_entries (df : DataFrame) (columns_map : dict)
           (name_key description_key : string) : list (cell * cell) :=
  map (fun row => (lookup (columns df) row name_key,
                   lookup (columns df) row description_key))
      (filter (summary_row_kept (columns df) (hd "" (keys columns_map)) (keys columns_map))
              (data df)).






(** A workbook for the examples.  Its summary is [summary_sheet]; its data
    sheets are found under the header row 8, under the header row 7 in the
    file of the weights; Sheet 3 of the file broken.xlsx has a column that
    is no period. *)
Definition sample_read_excel (file : string) (sheet_name : cell) (header : header_rows)
  : result DataFrame :=
  match sheet_name, header with
  | CStr "Summary", HeaderDefault => Ok summary_sheet
  | CStr name, HeaderRows [row] =>
      if (row =? (if String.eqb file "weights.xlsx" then 7 else 8))%nat then
        if String.eqb name "Sheet 1" then Ok scenario_sheet
        else if String.eqb name "Sheet 3"
             then Ok (if String.eqb file "broken.xlsx" then total_sheet else inf_sheet)
             else Raise ValueError
      else Raise ValueError
  | _, _ => Raise ValueError
  end.

(** A workbook whose summary sheet lists no sheet. *)
Definition contents_sheet : DataFrame :=
  {| columns := ["Unnamed: 0"; "Unnamed: 1"; "Unnamed: 2"; "Unnamed: 3"; "Unnamed: 4"];
     data := [ [nan; CStr "Contents"; nan; nan; nan];
               [nan; nan; nan; CStr "2015=100"; CStr "Food"] ] |}.

Definition contents_read_excel (file : string) (sheet_name : cell) (header : header_rows)
  : result DataFrame :=
  match sheet_name, header with
  | CStr "Summary", HeaderDefault => Ok contents_sheet
  | _, _ => Raise ValueError
  end.

(** The headers of [total_sheet] over no row. *)
Definition headers_only_sheet : DataFrame :=
  {| columns := columns total_sheet; data := [] |}.

(** A sheet that has a TIME and a Country column. *)
Definition two_country_sheet : DataFrame :=
  {| columns := ["TIME"; "Country"; "Unnamed: 2"; "2020-01"; "Unnamed: 4"];
     data := [ [CStr "FR"; CStr "France"; CStr "x"; CFloat f100_0; CStr "y"] ] |}.

(** The scenario sheet with other merge artifacts. *)
Definition scenario_sheet_other_artifacts : DataFrame :=
  {| columns := ["TIME"; "2020-01"; "Unnamed: 2"; "2020-02"; "Total"];
     data := [ [CStr "FR"; CFloat f100_0; nan; CStr ":"; CStr "d"];
               [CStr "DE"; CStr "d"; CFloat f99_5; CFloat f99_5; CStr ":"] ] |}.

(** Two rows agree on the retained columns of [df]. *)
Definition agree_on_retained (df : DataFrame) (row1 row2 : list cell) : Prop :=
  forall i, In i (retained df) -> nth i row1 nan = nth i row2 nan.

(** * Properties of the classifier *)

Lemma string_app_assoc (a b c : string) :
  ((a ++ b) ++ c = a ++ (b ++ c))%string.
Proof.
  induction a as [|x a IH]; simpl; [reflexivity | now rewrite IH].
Qed.

Lemma string_of_list_ascii_snoc (l : list ascii) (c : ascii) (s : string) :
  (string_of_list_ascii (l ++ [c]) ++ s = string_of_list_ascii l ++ String c s)%string.
Proof.
  induction l as [|x l IH]; simpl; [reflexivity | now rewrite IH].
Qed.

Lemma string_of_rev_nonempty (c : ascii) (acc : list ascii) :
  string_of_list_ascii (rev (c :: acc)) <> EmptyString.
Proof.
  simpl. destruct (rev acc); simpl; discriminate.
Qed.

Lemma all_chars_app (p : ascii -> bool) (a b : string) :
  all_chars p (a ++ b) = all_chars p a && all_chars p b.
Proof.
  induction a as [|x a IH]; simpl; [reflexivity|].
  now rewrite IH, andb_assoc.
Qed.

Lemma all_chars_of_list (p : ascii -> bool) (l : list ascii) :
  all_chars p (string_of_list_ascii l) = forallb p l.
Proof.
  induction l as [|x l IH]; simpl; [reflexivity | now rewrite IH].
Qed.

Lemma split_from_space (c : ascii) (s : string) (tok : list ascii) :
  isspace c = true ->
  split_from (String c s) tok = flush tok ++ split_from s [].
Proof.
  intros Hc. simpl. rewrite Hc. destruct tok; reflexivity.
Qed.

Lemma split_from_blank (s : string) (tok : list ascii) :
  blank s -> split_from s tok = flush tok.
Proof.
  unfold blank. revert tok.
  induction s as [|c s IH]; intros tok H; simpl in H.
  - destruct tok; reflexivity.
  - apply andb_true_iff in H as [Hc Hs].
    rewrite split_from_space by assumption.
    rewrite (IH [] Hs). simpl. now rewrite app_nil_r.
Qed.

(** Reading a run without whitespace only grows the token being read. *)
Lemma split_from_solid (t s : string) (tok : list ascii) :
  all_chars (fun c => negb (isspace c)) t = true ->
  split_from (t ++ s) tok = split_from s (rev (list_ascii_of_string t) ++ tok).
Proof.
  revert tok.
  induction t as [|c t IH]; intros tok H; simpl in *; [reflexivity|].
  apply andb_true_iff in H as [Hc Ht].
  apply negb_true_iff in Hc. rewrite Hc.
  rewrite (IH (c :: tok) Ht). now rewrite <- app_assoc.
Qed.

Lemma split_from_cut (pre : string) (sp : ascii) (s : string) (tok : list ascii) :
  isspace sp = true ->
  split_from (pre ++ String sp s) tok = split_from pre tok ++ split_from s [].
Proof.
  intros Hsp. revert tok.
  induction pre as [|c pre IH]; intros tok.
  - cbn [append]. rewrite split_from_space by assumption.
    destruct tok; reflexivity.
  - simpl. destruct (isspace c).
    + destruct tok; simpl; now rewrite IH.
    + apply IH.
Qed.

Lemma last_item_app {A : Type} (l : list A) (x : A) :
  last_item (l ++ [x]) = Ok x.
Proof.
  induction l as [|y l IH]; [reflexivity|].
  simpl. destruct (l ++ [x]) eqn:E; [destruct l; discriminate | exact IH].
Qed.

Lemma str_split_token (tok post : string) :
  solid tok -> blank post -> str_split (tok ++ post) = [tok].
Proof.
  intros [Hne Hsolid] Hpost. unfold str_split.
  rewrite split_from_solid by assumption.
  rewrite split_from_blank by assumption.
  rewrite app_nil_r. unfold flush.
  destruct (rev (list_ascii_of_string tok)) eqn:E.
  - exfalso. apply Hne.
    rewrite <- (string_of_list_ascii_of_string tok).
    rewrite <- (rev_involutive (list_ascii_of_string tok)), E. reflexivity.
  - rewrite <- E, rev_involutive, string_of_list_ascii_of_string. reflexivity.
Qed.

(** The classifier reads the trailing token. *)
Lemma last_item_trailing_token (s tok : string) :
  trailing_token s tok -> last_item (str_split s) = Ok tok.
Proof.
  intros [Hsolid [post [Hpost [-> | [pre [sp [Hsp ->]]]]]]].
  - now rewrite str_split_token.
  - unfold str_split. rewrite split_from_cut by assumption.
    fold (str_split (tok ++ post)). rewrite str_split_token by assumption.
    apply last_item_app.
Qed.

Lemma last_item_app_r {A : Type} (l1 l2 : list A) :
  l2 <> [] -> last_item (l1 ++ l2) = last_item l2.
Proof.
  intros H. induction l1 as [|y l1 IH]; [reflexivity|].
  simpl. destruct (l1 ++ l2) eqn:E; [|exact IH].
  apply app_eq_nil in E as [_ E]. contradiction.
Qed.

Lemma split_from_nil (s : string) (tok : list ascii) :
  split_from s tok = [] -> tok = [] /\ blank s.
Proof.
  unfold blank. revert tok.
  induction s as [|c s IH]; intros tok H.
  - destruct tok; [split; reflexivity | discriminate].
  - simpl in H |- *. destruct (isspace c) eqn:Hc.
    + destruct tok; [|discriminate].
      split; [reflexivity | exact (proj2 (IH [] H))].
    + destruct (IH (c :: tok) H) as [E _]. discriminate.
Qed.

Lemma trailing_token_skip (pre : string) (c : ascii) (s tok : string) :
  isspace c = true -> trailing_token s tok ->
  trailing_token (pre ++ String c s) tok.
Proof.
  intros Hc [Hsolid [post [Hpost H]]].
  split; [assumption|]. exists post. split; [assumption|]. right.
  destruct H as [-> | [pre' [sp [Hsp ->]]]].
  - exists pre, c. split; [assumption | reflexivity].
  - exists (pre ++ String c pre')%string, sp. split; [assumption|].
    now rewrite string_app_assoc.
Qed.

Lemma all_chars_rev (p : ascii -> bool) (acc : list ascii) :
  forallb p acc = true -> all_chars p (string_of_list_ascii (rev acc)) = true.
Proof.
  intros H. rewrite all_chars_of_list, forallb_forall.
  intros x Hx. rewrite <- in_rev in Hx.
  rewrite forallb_forall in H. now apply H.
Qed.

(** Whatever [split_from] returns last is the trailing token of what it has
    read and what is left to read. *)
Lemma split_from_last (s : string) :
  forall (acc : list ascii) (tok : string),
    forallb (fun c => negb (isspace c)) acc = true ->
    last_item (split_from s acc) = Ok tok ->
    trailing_token (string_of_list_ascii (rev acc) ++ s) tok.
Proof.
  induction s as [|c s IH]; intros acc tok Hacc Hlast.
  - destruct acc as [|a acc]; [discriminate|].
    simpl in Hlast. injection Hlast as <-.
    split; [split|].
    + apply string_of_rev_nonempty.
    + now apply (all_chars_rev _ (a :: acc)).
    + exists EmptyString. split; [reflexivity | now left].
  - destruct (isspace c) eqn:Hc.
    + rewrite split_from_space in Hlast by assumption.
      destruct (split_from s []) eqn:Hrest.
      * apply split_from_nil in Hrest as [_ Hblank].
        rewrite app_nil_r in Hlast.
        destruct acc as [|a acc]; [discriminate|].
        simpl in Hlast. injection Hlast as <-.
        split; [split|].
        -- apply string_of_rev_nonempty.
        -- now apply (all_chars_rev _ (a :: acc)).
        -- exists (String c s). split; [|now left].
           unfold blank in *. simpl. now rewrite Hc, Hblank.
      * rewrite last_item_app_r in Hlast by discriminate.
        apply trailing_token_skip; [assumption|].
        apply (IH [] tok); [reflexivity|]. now rewrite Hrest.
    + simpl in Hlast. rewrite Hc in Hlast.
      rewrite <- string_of_list_ascii_snoc.
      apply (IH (c :: acc) tok); [|assumption].
      simpl. now rewrite Hc, Hacc.
Qed.

(** Every sheet name is blank or has exactly the trailing token that the
    classifier reads. *)
Lemma str_split_cases (s : string) :
  (blank s /\ last_item (str_split s) = Raise IndexError) \/
  (exists tok, trailing_token s tok /\ last_item (str_split s) = Ok tok).
Proof.
  unfold str_split. destruct (split_from s []) eqn:E.
  - left. split; [exact (proj2 (split_from_nil _ _ E)) | reflexivity].
  - right. destruct (last_item (s0 :: l)) as [tok|e] eqn:Hlast.
    + exists tok. split; [|reflexivity].
      rewrite <- E in Hlast. exact (split_from_last s [] tok eq_refl Hlast).
    + exfalso. clear E. revert s0 Hlast.
      induction l as [|y l IH]; intros x H; [discriminate | exact (IH y H)].
Qed.

Lemma in_range_iff (a b x : Z) :
  in_range a b x = true <-> (a <= x < b)%Z.
Proof.
  unfold in_range. rewrite andb_true_iff, Z.leb_le, Z.ltb_lt. tauto.
Qed.

Lemma category_of_index_cases (idx : Z) :
  ((1 <= idx < 76)%Z -> category_of_index idx = "Food") /\
  ((76 <= idx < 109)%Z -> category_of_index idx = "Housing & Energy") /\
  ((109 <= idx < 151)%Z -> category_of_index idx = "Transport") /\
  ((idx < 1 \/ 151 <= idx)%Z -> category_of_index idx = "Other").
Proof.
  unfold category_of_index.
  destruct (Z.leb_spec 1 idx), (Z.ltb_spec idx 76), (Z.leb_spec 76 idx),
    (Z.ltb_spec idx 109), (Z.leb_spec 109 idx), (Z.ltb_spec idx 151);
    cbn [andb]; repeat split; intros; try reflexivity; lia.
Qed.

(** C6: the classifier reads the trailing whitespace-delimited token of the
    sheet name as an integer and classifies it by range: Food on [1,76),
    Housing & Energy on [76,109), Transport on [109,151), Other on every
    other integer, on a token that is no integer and on a name without a
    token.  The four sample names fall in Food, Housing & Energy, Other and
    Other. *)
Theorem map_sheet_to_category_by_range :
  (forall s tok idx,
      trailing_token s tok -> int_of_str tok = Ok idx ->
      map_sheet_to_category s = category_of_index idx /\
      ((1 <= idx < 76)%Z -> map_sheet_to_category s = "Food") /\
      ((76 <= idx < 109)%Z -> map_sheet_to_category s = "Housing & Energy") /\
      ((109 <= idx < 151)%Z -> map_sheet_to_category s = "Transport") /\
      ((idx < 1 \/ 151 <= idx)%Z -> map_sheet_to_category s = "Other")) /\
  (forall s tok e,
      trailing_token s tok -> int_of_str tok = Raise e ->
      map_sheet_to_category s = "Other") /\
  (forall s, blank s -> map_sheet_to_category s = "Other") /\
  (forall s, blank s \/ exists tok, trailing_token s tok) /\
  map_sheet_to_category "Sheet 1" = "Food" /\
  map_sheet_to_category "Sheet 76" = "Housing & Energy" /\
  map_sheet_to_category "Sheet 200" = "Other" /\
  map_sheet_to_category "NoNumber" = "Other".
Proof.
  assert (Hidx : forall s tok idx,
             trailing_token s tok -> int_of_str tok = Ok idx ->
             map_sheet_to_category s = category_of_index idx).
  { intros s tok idx Htok Hint. unfold map_sheet_to_category.
    rewrite (last_item_trailing_token _ _ Htok). simpl. rewrite Hint.
    reflexivity. }
  split; [|split; [|split; [|split]]].
  - intros s tok idx Htok Hint.
    rewrite (Hidx s tok idx Htok Hint).
    split; [reflexivity | apply category_of_index_cases].
  - intros s tok e Htok Hint. unfold map_sheet_to_category.
    rewrite (last_item_trailing_token _ _ Htok). simpl. now rewrite Hint.
  - intros s Hs. unfold map_sheet_to_category, str_split.
    now rewrite split_from_blank.
  - intros s. destruct (str_split_cases s) as [[H _] | [tok [H _]]];
      [now left | right; now exists tok].
  - repeat split; reflexivity.
Qed.

Lemma map_sheet_to_category_by_range_witness :
  trailing_token "Sheet 23" "23" /\ int_of_str "23" = Ok 23%Z /\
  map_sheet_to_category "Sheet 23" = "Food".
Proof.
  assert (Htok : trailing_token "Sheet 23" "23").
  { split; [split; [discriminate | reflexivity]|].
    exists EmptyString. split; [reflexivity|]. right.
    exists "Sheet", " "%char. split; reflexivity. }
  assert (Hint : int_of_str "23" = Ok 23%Z) by reflexivity.
  split; [exact Htok | split; [exact Hint|]].
  apply (proj1 (proj2 (proj1 map_sheet_to_category_by_range
                         "Sheet 23" "23" 23%Z Htok Hint))).
  lia.
Defined.

(** C7: the classifier is total: on every string, the empty one and those
    whose trailing token is no integer included, it returns one of the four
    categories, which are distinct; the three ranges are the integers 1-75,
    76-108 and 109-150 and no integer lies in two of them. *)
Theorem map_sheet_to_category_total :
  (forall s, In (map_sheet_to_category s) categories) /\
  NoDup categories /\
  (forall idx, SHEETS_INDEX_FOOD idx = true <-> (1 <= idx <= 75)%Z) /\
  (forall idx, SHEETS_INDEX_HOUSING_ENERGY idx = true <-> (76 <= idx <= 108)%Z) /\
  (forall idx, SHEETS_INDEX_TRANSPORT idx = true <-> (109 <= idx <= 150)%Z) /\
  (forall idx,
      SHEETS_INDEX_FOOD idx && SHEETS_INDEX_HOUSING_ENERGY idx = false /\
      SHEETS_INDEX_FOOD idx && SHEETS_INDEX_TRANSPORT idx = false /\
      SHEETS_INDEX_HOUSING_ENERGY idx && SHEETS_INDEX_TRANSPORT idx = false) /\
  map_sheet_to_category "" = "Other" /\
  map_sheet_to_category "Sheet 2b" = "Other" /\
  map_sheet_to_category "Sheet 7.5" = "Other".
Proof.
  split; [|split; [|split; [|split; [|split; [|split]]]]].
  - intros s. unfold map_sheet_to_category, categories.
    destruct (last_item (str_split s)) as [tok|e]; simpl; [|tauto].
    destruct (int_of_str tok) as [idx|e]; simpl; [|tauto].
    destruct (SHEETS_INDEX_FOOD idx); [tauto|].
    destruct (SHEETS_INDEX_HOUSING_ENERGY idx); [tauto|].
    destruct (SHEETS_INDEX_TRANSPORT idx); tauto.
  - unfold categories.
    repeat constructor; simpl; intuition discriminate.
  - intros idx. unfold SHEETS_INDEX_FOOD. rewrite in_range_iff. lia.
  - intros idx. unfold SHEETS_INDEX_HOUSING_ENERGY. rewrite in_range_iff. lia.
  - intros idx. unfold SHEETS_INDEX_TRANSPORT. rewrite in_range_iff. lia.
  - intros idx.
    unfold SHEETS_INDEX_FOOD, SHEETS_INDEX_HOUSING_ENERGY,
      SHEETS_INDEX_TRANSPORT, in_range.
    destruct (Z.leb_spec 1 idx), (Z.ltb_spec idx 76), (Z.leb_spec 76 idx),
      (Z.ltb_spec idx 109), (Z.leb_spec 109 idx), (Z.ltb_spec idx 151);
      cbn [andb]; repeat split; try reflexivity; lia.
  - repeat split; reflexivity.
Qed.

(** * Properties of the sheet cleaner *)

(** ** Lists *)

Lemma nth_map_lt {A B : Type} (f : A -> B) (l : list A) (j : nat) (d : B) (d' : A) :
  j < length l -> nth j (map f l) d = f (nth j l d').
Proof.
  intros H. rewrite (nth_indep (map f l) d (f d')) by now rewrite length_map.
  apply map_nth.
Qed.

Lemma flat_map_ext_in {A B : Type} (f g : A -> list B) (l : list A) :
  (forall x, In x l -> f x = g x) -> flat_map f l = flat_map g l.
Proof.
  induction l as [|x l IH]; intros H; simpl; [reflexivity|].
  rewrite (H x (or_introl eq_refl)), IH; [reflexivity|].
  intros y Hy. apply H. now right.
Qed.

Lemma flat_map_map {A B C : Type} (f : B -> list C) (g : A -> B) (l : list A) :
  flat_map f (map g l) = flat_map (fun x => f (g x)) l.
Proof.
  induction l as [|x l IH]; simpl; [reflexivity | now rewrite IH].
Qed.

Lemma filter_all {A : Type} (f : A -> bool) (l : list A) :
  (forall x, In x l -> f x = true) -> filter f l = l.
Proof.
  induction l as [|x l IH]; intros H; simpl; [reflexivity|].
  rewrite (H x (or_introl eq_refl)), IH; [reflexivity|].
  intros y Hy. apply H. now right.
Qed.

Lemma get_indexer_In (label : string) (cols : list string) (j : nat) :
  In j (get_indexer label cols) <-> j < length cols /\ nth j cols "" = label.
Proof.
  unfold get_indexer. rewrite filter_In, in_seq, String.eqb_eq.
  split; intros [H1 H2]; (split; [lia | exact H2]).
Qed.

(** Removing one position from [0 .. K-1] leaves [K-1] positions. *)
Lemma length_others (p K : nat) :
  p < K ->
  length (filter (fun j => negb (j =? p)%nat) (seq 0 K)) = K - 1.
Proof.
  intros H.
  replace K with (p + (1 + (K - p - 1))) at 1 by lia.
  rewrite !seq_app, !filter_app, !length_app.
  rewrite (filter_all _ (seq 0 p)).
  2:{ intros x Hx. apply in_seq in Hx. apply negb_true_iff, Nat.eqb_neq. lia. }
  rewrite (filter_all _ (seq (0 + p + 1) _)).
  2:{ intros x Hx. apply in_seq in Hx. apply negb_true_iff, Nat.eqb_neq. lia. }
  simpl. rewrite Nat.eqb_refl. simpl. rewrite !length_seq. lia.
Qed.

(** ** Rows of the melted frame *)

Lemma zip3_app (c1 c2 : list string) (d1 d2 : list datetime) (h1 h2 : list spec_float) :
  length c1 = length d1 -> length c1 = length h1 ->
  zip3 (c1 ++ c2) (d1 ++ d2) (h1 ++ h2) = zip3 c1 d1 h1 ++ zip3 c2 d2 h2.
Proof.
  revert d1 h1.
  induction c1 as [|c c1 IH]; intros [|d d1] [|h h1] Hd Hh;
    try discriminate; simpl in *; [reflexivity|].
  f_equal. apply IH; lia.
Qed.

Lemma zip3_column {R : Type} (a : R -> string) (t : datetime) (b : R -> spec_float)
      (rows : list R) :
  zip3 (map a rows) (repeat t (length rows)) (map b rows)
  = map (fun r => {| Country := a r; Date := t; HICP := b r |}) rows.
Proof.
  induction rows as [|r rows IH]; simpl; [reflexivity | now rewrite IH].
Qed.

(** Tiling the identifiers, repeating the labels and laying the columns end
    to end yields the rows column by column. *)
Lemma zip3_melt {R : Type} (f : cell -> string) (d : string -> datetime)
      (g : cell -> spec_float) (a : R -> cell) (lab : nat -> string)
      (b : nat -> R -> cell) (rows : list R) (rest : list nat) :
  zip3 (map f (tile (map a rows) (length rest)))
       (map d (repeat_each (map lab rest) (length rows)))
       (map g (concat (map (fun j => map (b j) rows) rest)))
  = flat_map (fun j => map (fun r => {| Country := f (a r);
                                        Date := d (lab j);
                                        HICP := g (b j r) |}) rows) rest.
Proof.
  unfold tile, repeat_each.
  induction rest as [|j rest IH]; [reflexivity|].
  cbn [length repeat concat map flat_map].
  rewrite !map_app, zip3_app.
  - rewrite IH. f_equal.
    rewrite map_repeat, !map_map. apply zip3_column.
  - now rewrite !length_map, repeat_length.
  - now rewrite !length_map.
Qed.

(** ** The steps of [cleaning_dataframe] *)

Lemma retained_lt (df : DataFrame) (i : nat) :
  columns df <> [] -> In i (retained df) -> i < length (columns df).
Proof.
  intros Hne [<- | Hi].
  - destruct (columns df); [contradiction | simpl; lia].
  - apply filter_In in Hi as [Hi _]. apply in_seq in Hi. lia.
Qed.

Lemma scrub_replace (c : cell) :
  (let c1 := if cell_is_str ":" c then nan else c in
   if cell_is_str "d" c1 then nan else c1) = scrub c.
Proof.
  unfold scrub, is_sentinel.
  destruct (cell_is_str ":" c) eqn:E1; [reflexivity|].
  simpl. now destruct (cell_is_str "d" c).
Qed.

(** Column selection, the two replacements and the renaming give [wide]. *)
Lemma iloc_wide (df : DataFrame) :
  columns df <> [] ->
  exists selected,
    iloc_columns (retained df) df = Ok selected /\
    rename [("TIME", "Country")]
      (reset_index (replace "d" nan (replace ":" nan selected))) = wide df.
Proof.
  intros Hne. unfold iloc_columns.
  assert (Hall : forallb (fun i => i <? length (columns df))%nat (retained df) = true).
  { apply forallb_forall. intros i Hi. apply Nat.ltb_lt. now apply retained_lt. }
  rewrite Hall. eexists. split; [reflexivity|].
  unfold wide, header, rename, reset_index, replace. cbn [columns data].
  f_equal.
  - now rewrite map_map.
  - rewrite !map_map. apply map_ext. intros row.
    rewrite !map_map. apply map_ext. intros i. apply scrub_replace.
Qed.

Lemma iloc_empty (df : DataFrame) :
  columns df = [] -> iloc_columns (retained df) df = Raise IndexError.
Proof.
  intros H. unfold iloc_columns, retained. rewrite H. reflexivity.
Qed.

Lemma header_length (df : DataFrame) : length (header df) = length (retained df).
Proof. unfold header. apply length_map. Qed.

Lemma column_wide (df : DataFrame) (j : nat) :
  j < length (retained df) ->
  column j (wide df)
  = map (fun row => scrub (nth (nth j (retained df) 0) row nan)) (data df).
Proof.
  intros Hj. unfold column, wide. cbn [data]. rewrite map_map.
  apply map_ext. intros row.
  now rewrite (nth_map_lt _ _ _ _ 0%nat).
Qed.

(** A retained column other than [Country] keeps its raw label. *)
Lemma header_raw_label (df : DataFrame) (p j : nat) :
  get_indexer "Country" (header df) = [p] ->
  j < length (retained df) -> j <> p ->
  nth j (header df) "" = nth (nth j (retained df) 0) (columns df) "".
Proof.
  intros Hp Hj Hne. unfold header at 1.
  rewrite (nth_map_lt _ _ _ _ 0%nat) by assumption.
  unfold rename_label. cbn [dict_get].
  destruct (String.eqb_spec "TIME" (nth (nth j (retained df) 0) (columns df) "")) as [E|E];
    [|reflexivity].
  exfalso. apply Hne.
  assert (Hin : In j (get_indexer "Country" (header df))).
  { apply get_indexer_In. rewrite header_length. split; [assumption|].
    unfold header. rewrite (nth_map_lt _ _ _ _ 0%nat) by assumption.
    unfold rename_label. cbn [dict_get]. rewrite <- E. reflexivity. }
  rewrite Hp in Hin. destruct Hin as [<- | []]. reflexivity.
Qed.

Lemma mapM_Ok {A B : Type} (f : A -> result B) (d : B) (l : list A) (ys : list B) :
  mapM f l = Ok ys ->
  ys = map (fun x => match f x with Ok y => y | Raise _ => d end) l.
Proof.
  revert ys. induction l as [|x l IH]; intros ys H; simpl in H.
  - now injection H as <-.
  - destruct (f x) as [y|] eqn:Ex; [|discriminate]. simpl in H.
    destruct (mapM f l) as [ys'|] eqn:E; [|discriminate].
    simpl in H. injection H as <-. simpl. rewrite Ex.
    now rewrite (IH ys' eq_refl).
Qed.

Lemma mapM_all_Ok {A B : Type} (f : A -> result B) (d : B) (l : list A) :
  (forall x, In x l -> exists y, f x = Ok y) ->
  mapM f l = Ok (map (fun x => match f x with Ok y => y | Raise _ => d end) l).
Proof.
  induction l as [|x l IH]; intros H; simpl; [reflexivity|].
  destruct (H x (or_introl eq_refl)) as [y Hy]. rewrite Hy. simpl.
  rewrite IH; [reflexivity|]. intros x' Hx'. apply H. now right.
Qed.

Lemma mapM_some_Raise {A B : Type} (f : A -> result B) (l : list A) (x : A) (e : exn) :
  In x l -> f x = Raise e ->
  exists x' e', In x' l /\ f x' = Raise e' /\ mapM f l = Raise e'.
Proof.
  induction l as [|y l IH]; intros Hin Hx; [contradiction|].
  simpl. destruct (f y) as [b|e'] eqn:Ey.
  - destruct Hin as [-> | Hin]; [congruence|].
    destruct (IH Hin Hx) as [x' [e' [Hx' [He' E]]]].
    exists x', e'. simpl. rewrite E. repeat split; [now right | assumption].
  - exists y, e'. repeat split; [now left | assumption].
Qed.

Section CleaningSteps.

Variable pd : Pandas.

Lemma parses_Ok (format : option string) (s : string) :
  parses pd format s = true <-> exists t, to_datetime_label pd format s = Ok t.
Proof.
  unfold parses. destruct (to_datetime_label pd format s) as [t|e].
  - split; [now exists t | reflexivity].
  - split; [discriminate | now intros [t H]].
Qed.

(** The exception of a label: a ValueError under a guessed format, a date
    parsing error that names the label when no format was guessed. *)
Lemma to_datetime_label_Raise (format : option string) (s : string) (err : exn) :
  to_datetime_label pd format s = Raise err ->
  (format <> None /\ err = ValueError) \/ (format = None /\ err = DateParseError s).
Proof.
  unfold to_datetime_label. destruct (is_null_label s); [discriminate|].
  destruct format as [fmt|].
  - destruct (strptime pd fmt s); [discriminate|].
    intros [= <-]. left. split; [discriminate | reflexivity].
  - destruct (to_datetime_scalar pd s); [discriminate|].
    intros [= <-]. right. split; reflexivity.
Qed.

Lemma to_datetime_Ok (labels : list string) (ds : list datetime) :
  to_datetime pd labels = Ok ds ->
  ds = map (date_of pd (column_format pd labels)) labels.
Proof.
  unfold to_datetime. apply (mapM_Ok _ NaT).
Qed.

Lemma to_datetime_parsed (labels : list string) :
  (forall s, In s labels -> parses pd (column_format pd labels) s = true) ->
  to_datetime pd labels = Ok (map (date_of pd (column_format pd labels)) labels).
Proof.
  intros H. unfold to_datetime. apply (mapM_all_Ok _ NaT).
  intros s Hs. now apply parses_Ok, H.
Qed.

Lemma to_datetime_Raise (labels : list string) (s : string) :
  In s labels -> parses pd (column_format pd labels) s = false ->
  exists s' err,
    In s' labels /\
    to_datetime_label pd (column_format pd labels) s' = Raise err /\
    to_datetime pd labels = Raise err.
Proof.
  intros Hin Hs. unfold parses in Hs.
  destruct (to_datetime_label pd (column_format pd labels) s) as [t|e] eqn:E;
    [discriminate|].
  exact (mapM_some_Raise _ labels s e Hin E).
Qed.

(** The cleaner after the column selection. *)
Lemma cleaning_dataframe_wide (df : DataFrame) :
  columns df <> [] ->
  cleaning_dataframe pd df =
  (long <- melt "Country" "HICP" (wide df) ;;
   date <- to_datetime pd (variable long) ;;
   Ok (dropna (zip3 (map (astype_str pd) (id_values long)) date
                    (map (to_numeric pd) (value long))))).
Proof.
  intros Hne. unfold cleaning_dataframe.
  destruct (iloc_wide df Hne) as [selected [Hsel Hwide]].
  fold (retained df). rewrite Hsel. cbn [bind]. now rewrite Hwide.
Qed.

Lemma melt_wide (df : DataFrame) (p : nat) :
  existsb (String.eqb "HICP") (header df) = false ->
  get_indexer "Country" (header df) = [p] ->
  exists long,
    melt "Country" "HICP" (wide df) = Ok long /\
    variable long = melted_labels df p /\
    forall format ds,
      ds = map (date_of pd format) (variable long) ->
      zip3 (map (astype_str pd) (id_values long)) ds
           (map (to_numeric pd) (value long))
      = long_table pd format df (nth p (retained df) 0) (periods df p).
Proof.
  intros Hval Hp.
  assert (Hlt : p < length (retained df)).
  { rewrite <- header_length.
    apply (proj1 (get_indexer_In "Country" (header df) p)).
    rewrite Hp. now left. }
  unfold melt. cbn [columns wide]. rewrite Hval, Hp.
  eexists. split; [reflexivity|].
  cbn [variable id_values value data].
  set (rest := filter (fun j => negb (j =? p)%nat) (seq 0 (length (header df)))).
  assert (Hrest : forall j, In j rest -> j < length (retained df) /\ j <> p).
  { intros j Hj. apply filter_In in Hj as [Hj Hjp]. apply in_seq in Hj.
    apply negb_true_iff, Nat.eqb_neq in Hjp. rewrite header_length in Hj.
    split; [lia | assumption]. }
  assert (Hlabels : map (fun j => nth j (header df) "") rest
                    = map (fun i => nth i (columns df) "") (periods df p)).
  { unfold periods. rewrite map_map, <- header_length. fold rest.
    apply map_ext_in. intros j Hj. destruct (Hrest j Hj).
    now apply (header_raw_label df p). }
  split.
  - unfold melted_labels. rewrite Hlabels.
    unfold wide. cbn [data]. now rewrite length_map.
  - intros format ds ->.
    replace (length (header df) - 1) with (length rest)
      by (unfold rest; rewrite length_others; [reflexivity | now rewrite header_length]).
    rewrite (map_ext_in (fun j => column j (wide df))
               (fun j => map (fun row => scrub (nth (nth j (retained df) 0) row nan))
                             (data df))).
    2:{ intros j Hj. apply column_wide. now destruct (Hrest j Hj). }
    rewrite column_wide by assumption.
    replace (length (data (wide df))) with (length (data df))
      by (unfold wide; cbn [data]; now rewrite length_map).
    rewrite (zip3_melt (astype_str pd) (date_of pd format) (to_numeric pd)
               (fun row => scrub (nth (nth p (retained df) 0) row nan))
               (fun j => nth j (header df) "")
               (fun j row => scrub (nth (nth j (retained df) 0) row nan))).
    unfold long_table, periods. rewrite flat_map_map, <- header_length. fold rest.
    apply flat_map_ext_in. intros j Hj. destruct (Hrest j Hj).
    apply map_ext. intros row. unfold observe.
    now rewrite (header_raw_label df p j).
Qed.

End CleaningSteps.

(** ** When the cleaner returns, and what *)

Lemma filter_flat_map {A B : Type} (f : B -> bool) (g : A -> list B) (l : list A) :
  filter f (flat_map g l) = flat_map (fun x => filter f (g x)) l.
Proof.
  induction l as [|x l IH]; simpl; [reflexivity|].
  now rewrite filter_app, IH.
Qed.

Lemma filter_map_swap {A B : Type} (f : B -> bool) (g : A -> B) (l : list A) :
  filter f (map g l) = map g (filter (fun x => f (g x)) l).
Proof.
  induction l as [|x l IH]; simpl; [reflexivity|].
  destruct (f (g x)); simpl; now rewrite IH.
Qed.

Lemma in_repeat_each {A : Type} (x : A) (l : list A) (n : nat) :
  In x (repeat_each l n) <-> In x l /\ n <> 0.
Proof.
  unfold repeat_each. rewrite in_flat_map. split.
  - intros [y [Hy Hx]]. apply repeat_spec in Hx as Hxy. subst y.
    split; [assumption|]. intros ->. contradiction.
  - intros [Hx Hn]. exists x. split; [assumption|].
    destruct n; [contradiction | now left].
Qed.

Section CleaningResults.

Variable pd : Pandas.

Lemma incomplete_observe (format : option string) (df : DataFrame) (k i : nat)
      (row : list cell) :
  incomplete (observe pd format df k i row) = dropped pd format df i row.
Proof.
  unfold incomplete, observe, dropped, scrub. cbn [Date HICP].
  destruct (is_sentinel (nth i row nan)); simpl.
  - now rewrite orb_true_r.
  - reflexivity.
Qed.

Lemma dropna_long_table (format : option string) (df : DataFrame) (k : nat)
      (cols : list nat) :
  dropna (long_table pd format df k cols) = kept_table pd format df k cols.
Proof.
  unfold dropna, long_table, kept_table.
  rewrite filter_flat_map. apply flat_map_ext. intros i.
  rewrite filter_map_swap. f_equal.
  apply filter_ext. intros row. now rewrite incomplete_observe.
Qed.

(** With well-formed headers the cleaner returns as soon as the labels
    handed to [pd.to_datetime] can be converted under their format. *)
Lemma cleaning_dataframe_success (df : DataFrame) (p : nat) :
  well_formed_headers df p ->
  (forall s, In s (melted_labels df p) -> parses pd (sheet_format pd df p) s = true) ->
  cleaning_dataframe pd df
  = Ok (dropna (long_table pd (sheet_format pd df p) df
                           (nth p (retained df) 0) (periods df p))).
Proof.
  intros [Hne [Hval Hp]] Hparse.
  rewrite cleaning_dataframe_wide by assumption.
  destruct (melt_wide pd df p Hval Hp) as [long [Hmelt [Hvar Hrows]]].
  rewrite Hmelt. cbn [bind].
  rewrite Hvar, (to_datetime_parsed pd _ Hparse). cbn [bind].
  rewrite <- Hvar at 2. fold (sheet_format pd df p).
  now rewrite (Hrows _ _ eq_refl).
Qed.

(** With well-formed headers one label that cannot be converted makes the
    cleaner raise: a ValueError, or a date parsing error. *)
Lemma cleaning_dataframe_failure (df : DataFrame) (p : nat) (s : string) :
  well_formed_headers df p ->
  In s (melted_labels df p) -> parses pd (sheet_format pd df p) s = false ->
  exists err,
    cleaning_dataframe pd df = Raise err /\
    ((sheet_format pd df p <> None /\ err = ValueError) \/
     (sheet_format pd df p = None /\ exists s', err = DateParseError s')).
Proof.
  intros [Hne [Hval Hp]] Hin Hs.
  rewrite cleaning_dataframe_wide by assumption.
  destruct (melt_wide pd df p Hval Hp) as [long [Hmelt [Hvar _]]].
  rewrite Hmelt. cbn [bind]. rewrite Hvar.
  destruct (to_datetime_Raise pd _ s Hin Hs) as [s' [err [_ [Herr E]]]].
  exists err. rewrite E. split; [reflexivity|].
  destruct (to_datetime_label_Raise pd _ _ _ Herr) as [[H1 H2] | [H1 H2]].
  - left. now split.
  - right. split; [assumption | now exists s'].
Qed.

(** Whenever the cleaner returns, the headers were well formed, the
    labels could be converted, and the result is the long table without its
    incomplete rows. *)
Lemma cleaning_dataframe_inv (df : DataFrame) (out : list Observation) :
  cleaning_dataframe pd df = Ok out ->
  exists p,
    well_formed_headers df p /\
    (forall s, In s (melted_labels df p) -> parses pd (sheet_format pd df p) s = true) /\
    out = dropna (long_table pd (sheet_format pd df p) df
                             (nth p (retained df) 0) (periods df p)).
Proof.
  intros H.
  destruct (columns df) as [|c cols] eqn:Hcols.
  { unfold cleaning_dataframe in H. fold (retained df) in H.
    now rewrite (iloc_empty df Hcols) in H. }
  assert (Hne : columns df <> []) by (rewrite Hcols; discriminate).
  rewrite cleaning_dataframe_wide in H by assumption.
  destruct (existsb (String.eqb "HICP") (header df)) eqn:Hval.
  { unfold melt in H. cbn [columns wide] in H. now rewrite Hval in H. }
  destruct (get_indexer "Country" (header df)) as [|p [|q l]] eqn:Hp.
  { unfold melt in H. cbn [columns wide] in H. now rewrite Hval, Hp in H. }
  2:{ unfold melt in H. cbn [columns wide] in H. now rewrite Hval, Hp in H. }
  exists p.
  assert (Hwf : well_formed_headers df p) by (repeat split; assumption).
  split; [assumption|].
  assert (Hparse : forall s, In s (melted_labels df p) ->
                             parses pd (sheet_format pd df p) s = true).
  { intros s Hin. destruct (parses pd (sheet_format pd df p) s) eqn:Hs; [reflexivity|].
    destruct (cleaning_dataframe_failure df p s Hwf Hin Hs) as [err [E _]].
    rewrite cleaning_dataframe_wide in E by assumption. congruence. }
  split; [assumption|].
  rewrite <- cleaning_dataframe_wide in H by assumption.
  rewrite (cleaning_dataframe_success df p Hwf Hparse) in H.
  now injection H as <-.
Qed.

End CleaningResults.

(** ** The scenario *)

(** C4: on the sheet with the columns TIME, 2020-01, mergeArtifact, 2020-02,
    mergeArtifact and the rows (FR, 100.0, x, ":", y) and (DE, d, x, 99.5, y)
    the cleaner returns exactly the two rows (FR, 2020-01-01, 100.0) and
    (DE, 2020-02-01, 99.5), whenever the two labels parse as the first days
    of their months. *)
Theorem cleaning_dataframe_scenario (pd : Pandas) :
  to_datetime_scalar pd "2020-01" = Some (Timestamp 2020 1 1) ->
  to_datetime_scalar pd "2020-02" = Some (Timestamp 2020 2 1) ->
  cleaning_dataframe pd scenario_sheet = Ok [fr_2020_01; de_2020_02].
Proof.
  intros H1 H2. unfold cleaning_dataframe, scenario_sheet.
  cbn -[to_datetime_scalar guess_datetime_format strptime].
  destruct (guess_datetime_format pd "2020-01") as [fmt|] eqn:G.
  - rewrite (strptime_iso pd "2020-01" "2020-01" fmt "%Y-%m" eq_refl eq_refl G).
    rewrite (strptime_iso pd "2020-01" "2020-02" fmt "%Y-%m" eq_refl eq_refl G).
    rewrite H1, H2. reflexivity.
  - rewrite H1, H2. reflexivity.
Qed.

Lemma cleaning_dataframe_scenario_witness :
  cleaning_dataframe sample_pandas scenario_sheet = Ok [fr_2020_01; de_2020_02].
Proof.
  apply cleaning_dataframe_scenario; reflexivity.
Defined.

(** ** No missing value survives *)

(** C2 fails as stated: an infinite value is not missing, so the cleaner
    keeps a row whose HICP is not finite. *)
Lemma cleaning_dataframe_keeps_infinity :
  exists out o,
    cleaning_dataframe sample_pandas inf_sheet = Ok out /\
    In o out /\ is_finite (HICP o) = false.
Proof.
  exists [ {| Country := "FR"; Date := Timestamp 2020 1 1; HICP := S754_infinity false |};
           {| Country := "DE"; Date := Timestamp 2020 1 1; HICP := S754_infinity true |} ].
  eexists. split; [reflexivity|]. split; [now left | reflexivity].
Qed.

(** C2, amended: every row that the cleaner returns has its three fields
    populated: Country is a string, Date is not the null date and HICP is a
    float that is not NaN.  HICP may be infinite. *)
Theorem cleaning_dataframe_populated (pd : Pandas) (df : DataFrame)
        (out : list Observation) :
  cleaning_dataframe pd df = Ok out ->
  Forall (fun o => is_nat (Date o) = false /\ is_nan (HICP o) = false) out.
Proof.
  intros H.
  destruct (cleaning_dataframe_inv pd df out H) as [p [_ [_ ->]]].
  apply Forall_forall. intros o Ho.
  unfold dropna in Ho. apply filter_In in Ho as [_ Ho].
  apply negb_true_iff in Ho. unfold incomplete in Ho.
  now apply orb_false_iff in Ho.
Qed.

Lemma cleaning_dataframe_populated_witness :
  Forall (fun o => is_nat (Date o) = false /\ is_nan (HICP o) = false)
         [fr_2020_01; de_2020_02].
Proof.
  apply (cleaning_dataframe_populated sample_pandas scenario_sheet).
  reflexivity.
Defined.

(** ** The renaming *)

Lemma filter_none {A : Type} (f : A -> bool) (l : list A) :
  (forall x, In x l -> f x = false) -> filter f l = [].
Proof.
  induction l as [|x l IH]; intros H; simpl; [reflexivity|].
  rewrite (H x (or_introl eq_refl)). apply IH.
  intros y Hy. apply H. now right.
Qed.

Lemma header_nth (df : DataFrame) (j : nat) :
  j < length (retained df) ->
  nth j (header df) ""
  = rename_label [("TIME", "Country")] (nth (nth j (retained df) 0) (columns df) "").
Proof.
  intros Hj. unfold header. now rewrite (nth_map_lt _ _ _ _ 0%nat).
Qed.

Lemma rename_label_TIME (c : string) :
  rename_label [("TIME", "Country")] c
  = if String.eqb "TIME" c then "Country" else c.
Proof.
  unfold rename_label. cbn [dict_get]. now destruct (String.eqb "TIME" c).
Qed.

(** Without a retained column called TIME or Country there is no
    identifier column. *)
Lemma get_indexer_no_Country (df : DataFrame) :
  (forall i, In i (retained df) ->
             nth i (columns df) "" <> "TIME" /\ nth i (columns df) "" <> "Country") ->
  get_indexer "Country" (header df) = [].
Proof.
  intros H. unfold get_indexer. apply filter_none.
  intros j Hj. apply in_seq in Hj. rewrite header_length in Hj.
  rewrite header_nth by lia. rewrite rename_label_TIME.
  destruct (H (nth j (retained df) 0)) as [H1 H2]; [apply nth_In; lia|].
  apply String.eqb_neq in H1. rewrite String.eqb_sym in H1. rewrite H1.
  now apply String.eqb_neq.
Qed.

(** C3 fails as stated: a first column called GEO is not renamed and the
    cleaner raises a KeyError. *)
Lemma cleaning_dataframe_GEO_raises :
  hd "" (header geo_sheet) = "GEO" /\
  cleaning_dataframe sample_pandas geo_sheet = Raise (KeyError "Country").
Proof.
  split; reflexivity.
Qed.

Lemma retained_in_bounds (df : DataFrame) :
  columns df <> [] ->
  forallb (fun i => i <? length (columns df))%nat (retained df) = true.
Proof.
  intros Hne. apply forallb_forall. intros i Hi.
  apply Nat.ltb_lt. now apply retained_lt.
Qed.

Lemma retained_tail_nonzero (df : DataFrame) (j : nat) :
  0 < j < length (retained df) -> nth j (retained df) 0 <> 0.
Proof.
  unfold retained. intros [H0 Hj]. destruct j as [|j]; [lia|].
  cbn [nth]. simpl in Hj.
  set (odds := filter _ _) in *.
  assert (Hin : In (nth j odds 0) odds) by (apply nth_In; lia).
  apply filter_In in Hin as [_ Hodd]. intros E. rewrite E in Hodd. discriminate.
Qed.

(** With a first column called TIME, and no other retained column called
    TIME or Country, the identifier column is the first one. *)
Lemma get_indexer_TIME_first (df : DataFrame) (rest : list string) :
  columns df = "TIME" :: rest ->
  (forall i, In i (retained df) -> i <> 0 ->
             nth i (columns df) "" <> "TIME" /\ nth i (columns df) "" <> "Country") ->
  get_indexer "Country" (header df) = [0].
Proof.
  intros Hcols H. unfold get_indexer.
  rewrite header_length.
  assert (Hlen : length (retained df) = S (length (retained df) - 1))
    by (unfold retained; simpl; lia).
  rewrite Hlen. cbn [seq filter].
  assert (H0 : nth 0 (header df) "" = "Country").
  { rewrite header_nth by lia. unfold retained. cbn [nth].
    rewrite Hcols. reflexivity. }
  rewrite H0, String.eqb_refl.
  f_equal. apply filter_none.
  intros j Hj. apply in_seq in Hj.
  rewrite header_nth by lia. rewrite rename_label_TIME.
  assert (Hnz : nth j (retained df) 0 <> 0) by (apply retained_tail_nonzero; lia).
  destruct (H (nth j (retained df) 0)) as [H1 H2];
    [apply nth_In; lia | assumption |].
  apply String.eqb_neq in H1. rewrite String.eqb_sym in H1. rewrite H1.
  now apply String.eqb_neq.
Qed.

Lemma header_no_HICP (df : DataFrame) :
  (forall i, In i (retained df) -> nth i (columns df) "" <> "HICP") ->
  existsb (String.eqb "HICP") (header df) = false.
Proof.
  intros H. unfold header.
  induction (retained df) as [|i l IH]; [reflexivity|].
  cbn [map existsb]. rewrite IH by (intros j Hj; apply H; now right).
  rewrite orb_false_r, rename_label_TIME.
  destruct (String.eqb "TIME" (nth i (columns df) "")); [reflexivity|].
  apply String.eqb_neq. intros E. apply (H i); [now left | now symmetry].
Qed.

(** C3, amended: the renaming turns into Country the labels that are
    exactly TIME and leaves every other label as it is, so the first column
    is renamed when, and only when, it is called TIME.  When no retained
    column is called TIME or Country the cleaner raises; when the first
    column is called TIME, no other retained column is called TIME, Country
    or HICP and the period labels can be converted under the format guessed
    from the first of them, the cleaner returns. *)
Theorem cleaning_dataframe_renames_TIME (pd : Pandas) (df : DataFrame)
        (c : string) (rest : list string) :
  columns df = c :: rest ->
  (exists selected,
      iloc_columns (retained df) df = Ok selected /\
      hd "" (columns selected) = c /\
      columns (rename [("TIME", "Country")]
                 (reset_index (replace "d" nan (replace ":" nan selected))))
      = map (fun l => if String.eqb "TIME" l then "Country" else l) (columns selected)) /\
  ((forall i, In i (retained df) ->
              nth i (columns df) "" <> "TIME" /\ nth i (columns df) "" <> "Country") ->
   cleaning_dataframe pd df
   = Raise (if existsb (String.eqb "HICP") (header df)
            then ValueError else KeyError "Country")) /\
  (c = "TIME" ->
   (forall i, In i (retained df) -> i <> 0 ->
              nth i (columns df) "" <> "TIME" /\
              nth i (columns df) "" <> "Country" /\
              nth i (columns df) "" <> "HICP") ->
   labels_convert pd df 0 ->
   exists out, cleaning_dataframe pd df = Ok out).
Proof.
  intros Hcols.
  assert (Hne : columns df <> []) by (rewrite Hcols; discriminate).
  split; [|split].
  - unfold iloc_columns. rewrite (retained_in_bounds df Hne).
    eexists. split; [reflexivity|]. split.
    + cbn [columns]. unfold retained. cbn [map hd]. now rewrite Hcols.
    + unfold rename, reset_index, replace. cbn [columns].
      apply map_ext. intros l. apply rename_label_TIME.
  - intros H. rewrite cleaning_dataframe_wide by assumption.
    unfold melt. cbn [columns wide].
    destruct (existsb (String.eqb "HICP") (header df)); [reflexivity|].
    now rewrite (get_indexer_no_Country df H).
  - intros -> H Hlabels.
    assert (Hp : get_indexer "Country" (header df) = [0]).
    { apply (get_indexer_TIME_first df rest Hcols).
      intros i Hi Hnz. destruct (H i Hi Hnz) as [H1 [H2 _]]. now split. }
    assert (Hval : existsb (String.eqb "HICP") (header df) = false).
    { apply header_no_HICP. intros i Hi.
      destruct (Nat.eq_dec i 0) as [-> | Hnz].
      - rewrite Hcols. discriminate.
      - now destruct (H i Hi Hnz) as [_ [_ H3]]. }
    eexists. apply (cleaning_dataframe_success pd df 0); [|exact Hlabels].
    repeat split; assumption.
Qed.

Lemma cleaning_dataframe_renames_TIME_witness :
  exists out, cleaning_dataframe sample_pandas scenario_sheet = Ok out.
Proof.
  refine (proj2 (proj2 (cleaning_dataframe_renames_TIME sample_pandas scenario_sheet
                          "TIME" _ eq_refl)) eq_refl _ _).
  - intros i Hi Hnz. cbn in Hi.
    destruct Hi as [<- | [<- | [<- | []]]]; [contradiction | |];
      cbn; repeat split; discriminate.
  - intros s Hs. cbn in Hs.
    destruct Hs as [<- | [<- | [<- | [<- | []]]]]; reflexivity.
Defined.

(** ** The cleaner on its own output *)

Lemma as_frame_well_formed (rows : list Observation) :
  well_formed_headers (as_frame rows) 0.
Proof.
  repeat split. discriminate.
Qed.

Lemma as_frame_labels (rows : list Observation) :
  melted_labels (as_frame rows) 0 = repeat "Date" (length rows).
Proof.
  unfold melted_labels, periods, repeat_each, as_frame.
  cbn. now rewrite app_nil_r, length_map.
Qed.

(** A column that repeats one label without a digit, which is no date on
    its own: no format is guessed, and the first conversion fails. *)
Lemma to_datetime_no_digit (pd : Pandas) (s : string) (n : nat) :
  count_digits s = 0%Z ->
  skipped_label s = false ->
  to_datetime_scalar pd s = None ->
  to_datetime pd (repeat s (S n)) = Raise (DateParseError s).
Proof.
  intros Hdigits Hskip Hscalar.
  unfold to_datetime, column_format. cbn [repeat find].
  rewrite Hskip. cbn [negb].
  rewrite (guess_needs_digit pd s Hdigits).
  cbn [mapM]. unfold to_datetime_label.
  unfold skipped_label in Hskip.
  apply orb_false_iff in Hskip as [Hskip _].
  apply orb_false_iff in Hskip as [Hnull _].
  now rewrite Hnull, Hscalar.
Qed.

(** C5 fails as stated: given one cleaned row the cleaner raises, for the
    label Date of the only period column it keeps is no date. *)
Lemma cleaning_dataframe_not_idempotent :
  cleaning_dataframe sample_pandas scenario_sheet = Ok [fr_2020_01; de_2020_02] /\
  cleaning_dataframe sample_pandas (as_frame [fr_2020_01; de_2020_02])
  = Raise (DateParseError "Date").
Proof.
  split; reflexivity.
Qed.

(** C5, amended: the cleaner is not idempotent.  On a table of its own
    output shape with at least one row it keeps the columns Country and
    Date, discards HICP as a column at an even position, and raises a date
    parsing error on the label Date, which is no date; only the empty table
    comes back as it is. *)
Theorem cleaning_dataframe_own_output (pd : Pandas) (rows : list Observation) :
  to_datetime_scalar pd "Date" = None ->
  retained (as_frame rows) = [0; 1] /\
  cleaning_dataframe pd (as_frame []) = Ok [] /\
  (rows <> [] ->
   cleaning_dataframe pd (as_frame rows) = Raise (DateParseError "Date")).
Proof.
  intros Hdate. split; [reflexivity | split; [reflexivity|]].
  intros Hrows.
  destruct (as_frame_well_formed rows) as [Hne [Hval Hp]].
  rewrite cleaning_dataframe_wide by assumption.
  destruct (melt_wide pd (as_frame rows) 0 Hval Hp) as [long [Hmelt [Hvar _]]].
  rewrite Hmelt. cbn [bind]. rewrite Hvar, as_frame_labels.
  destruct rows as [|o rows]; [contradiction|].
  cbn [length]. now rewrite (to_datetime_no_digit pd "Date" _ eq_refl eq_refl Hdate).
Qed.

Lemma cleaning_dataframe_own_output_witness :
  cleaning_dataframe sample_pandas (as_frame [fr_2020_01])
  = Raise (DateParseError "Date").
Proof.
  apply (proj2 (proj2 (cleaning_dataframe_own_output sample_pandas [fr_2020_01]
                         eq_refl))).
  discriminate.
Defined.

(** ** Which rows the cleaner drops *)

(** C1 fails as stated: the headers of [total_sheet] are well formed, yet
    the cleaner does not drop the rows under the label that cannot be
    converted to a date: it raises. *)
Lemma cleaning_dataframe_label_raises :
  well_formed_headers total_sheet 0 /\
  parses sample_pandas (sheet_format sample_pandas total_sheet 0) "Total" = false /\
  cleaning_dataframe sample_pandas total_sheet = Raise ValueError /\
  cleaning_dataframe sample_pandas total_sheet
  <> Ok (kept_table sample_pandas (sheet_format sample_pandas total_sheet 0)
                    total_sheet 0 (periods total_sheet 0)).
Proof.
  repeat split; discriminate.
Qed.

(** The label of a period column is handed to [pd.to_datetime] as soon as
    the sheet has a row. *)
Lemma melted_label_In (df : DataFrame) (p i : nat) :
  In i (periods df p) -> data df <> [] ->
  In (nth i (columns df) "") (melted_labels df p).
Proof.
  intros Hi Hrows. unfold melted_labels. apply in_repeat_each. split.
  - apply in_map_iff. now exists i.
  - destruct (data df); [contradiction | discriminate].
Qed.

Lemma cleaning_dataframe_kept (pd : Pandas) (df : DataFrame) (p : nat) :
  well_formed_headers df p ->
  labels_convert pd df p ->
  cleaning_dataframe pd df
  = Ok (kept_table pd (sheet_format pd df p) df (nth p (retained df) 0) (periods df p)).
Proof.
  intros Hwf Hparse.
  rewrite (cleaning_dataframe_success pd df p Hwf Hparse).
  now rewrite dropna_long_table.
Qed.

(** An ISO label is not one of the texts read as a missing date. *)
Lemma iso_not_null (s iso : string) :
  iso_format s = Some iso -> is_null_label s = false.
Proof.
  intros H. unfold is_null_label, nat_strings. cbn [existsb].
  repeat match goal with
         | |- context [String.eqb s ?t] =>
             destruct (String.eqb_spec s t) as [-> | _]; [cbv in H; discriminate H|]
         end.
  reflexivity.
Qed.

(** ISO labels of one format that are dates on their own can be converted
    under the format guessed from the first of them. *)
Lemma iso_labels_parse (pd : Pandas) (iso : string) (labels : list string) :
  iso_labels pd iso labels ->
  forall s, In s labels -> parses pd (column_format pd labels) s = true.
Proof.
  intros H s Hs. destruct (H s Hs) as [Hiso Hdate].
  unfold parses, to_datetime_label. rewrite (iso_not_null s iso Hiso).
  destruct (column_format pd labels) as [fmt|] eqn:Hfmt.
  - unfold column_format in Hfmt.
    destruct (find (fun s0 => negb (skipped_label s0)) labels) as [first|] eqn:Hfind;
      [|discriminate].
    apply find_some in Hfind as [Hfirst _].
    destruct (H first Hfirst) as [Hiso' _].
    rewrite (strptime_iso pd first s fmt iso Hiso' Hiso Hfmt).
    now destruct (to_datetime_scalar pd s).
  - now destruct (to_datetime_scalar pd s).
Qed.

Lemma iso_labels_convert (pd : Pandas) (iso : string) (df : DataFrame) (p : nat) :
  iso_labels pd iso (period_labels df p) -> labels_convert pd df p.
Proof.
  intros H. unfold labels_convert, sheet_format.
  apply (iso_labels_parse pd iso).
  intros s Hs. apply H. unfold melted_labels in Hs.
  now apply in_repeat_each in Hs as [Hs _].
Qed.

(** C1, amended: for every raw sheet with well-formed headers whose period
    labels can all be converted, to a date or to the null date, under the
    format guessed from the first of them (or each on its own when no format
    is guessed), the cleaner returns and drops exactly the (country, period)
    rows whose original value was ":" or "d", whose label is converted to
    the null date, or whose value coerces to NaN (a text that is no number,
    or a cell already missing); every other row is kept, as its typed
    observation.  Labels that are all year-month texts, or all
    year-month-day texts, and dates on their own can be converted.  On a
    sheet with at least one data row a label that cannot be converted drops
    no row: it makes the call raise. *)
Theorem cleaning_dataframe_drops (pd : Pandas) (df : DataFrame) (p : nat) :
  well_formed_headers df p ->
  (labels_convert pd df p ->
   cleaning_dataframe pd df
   = Ok (flat_map
           (fun i => map (observe pd (sheet_format pd df p) df (nth p (retained df) 0) i)
                         (filter (fun row => negb (dropped pd (sheet_format pd df p) df i row))
                                 (data df)))
           (periods df p)) /\
   (forall i row,
       In i (periods df p) -> In row (data df) ->
       (dropped pd (sheet_format pd df p) df i row = true <->
        (nth i row nan = CStr ":" \/ nth i row nan = CStr "d") \/
        to_datetime_label pd (sheet_format pd df p) (nth i (columns df) "") = Ok NaT \/
        to_numeric pd (nth i row nan) = S754_nan))) /\
  (forall iso, iso_labels pd iso (period_labels df p) -> labels_convert pd df p) /\
  (forall i,
      In i (periods df p) -> data df <> [] ->
      parses pd (sheet_format pd df p) (nth i (columns df) "") = false ->
      exists err, cleaning_dataframe pd df = Raise err).
Proof.
  intros Hwf. split; [|split].
  - intros Hparse. split.
    + exact (cleaning_dataframe_kept pd df p Hwf Hparse).
    + intros i row Hi Hrow.
      assert (Hrows : data df <> []) by (intros E; rewrite E in Hrow; contradiction).
      pose proof (Hparse _ (melted_label_In df p i Hi Hrows)) as Hlabel.
      unfold dropped, is_sentinel, date_of. unfold parses in Hlabel.
      rewrite !orb_true_iff.
      assert (Hs : forall s c, cell_is_str s c = true <-> c = CStr s).
      { intros s c. destruct c; simpl; try (split; [discriminate | intros E; discriminate]).
        rewrite String.eqb_eq. split; [now intros -> | now intros [= ->]]. }
      rewrite !Hs.
      assert (Hn : forall f, is_nan f = true <-> f = S754_nan).
      { intros f. destruct f; simpl; split; intros E; try discriminate; reflexivity. }
      rewrite Hn.
      destruct (to_datetime_label pd (sheet_format pd df p) (nth i (columns df) ""))
        as [[y m d|]|]; simpl; [| |discriminate];
        intuition (discriminate || congruence).
  - intros iso. apply iso_labels_convert.
  - intros i Hi Hrows Hlabel.
    destruct (cleaning_dataframe_failure pd df p _ Hwf
                (melted_label_In df p i Hi Hrows) Hlabel) as [err [Herr _]].
    now exists err.
Qed.

Lemma cleaning_dataframe_drops_witness :
  cleaning_dataframe sample_pandas scenario_sheet
  = Ok (flat_map
          (fun i => map (observe sample_pandas (Some "%Y-%m") scenario_sheet 0 i)
                        (filter (fun row => negb (dropped sample_pandas (Some "%Y-%m")
                                                          scenario_sheet i row))
                                (data scenario_sheet)))
          [1; 3]).
Proof.
  refine (proj1 (proj1 (cleaning_dataframe_drops sample_pandas scenario_sheet 0 _) _)).
  - repeat split. discriminate.
  - intros s Hs. cbn in Hs.
    destruct Hs as [<- | [<- | [<- | [<- | []]]]]; reflexivity.
Defined.

(** ** Dates raise, values do not *)

Lemma to_numeric_text (pd : Pandas) (s : string) :
  floatify pd s = None -> to_numeric pd (scrub (CStr s)) = S754_nan.
Proof.
  intros H. unfold scrub. destruct (is_sentinel (CStr s)); [reflexivity|].
  simpl. now rewrite H.
Qed.

(** Without a row no label is converted: the empty table comes back. *)
Lemma cleaning_dataframe_headers_only (pd : Pandas) (df : DataFrame) (p : nat) :
  well_formed_headers df p -> data df = [] ->
  cleaning_dataframe pd df = Ok [].
Proof.
  intros Hwf Hdata.
  rewrite (cleaning_dataframe_success pd df p Hwf).
  - unfold long_table. rewrite Hdata. cbn [map].
    induction (periods df p) as [|i l IH]; [reflexivity | exact IH].
  - intros s Hs. unfold melted_labels in Hs.
    apply in_repeat_each in Hs as [_ Hn]. rewrite Hdata in Hn. now contradiction Hn.
Qed.

(** C9 fails as stated: the label Total of [headers_only_sheet] cannot be
    converted to a date, under the format of its column or on its own, yet
    the cleaner raises nothing: the sheet has no row, and the empty table
    comes back. *)
Lemma cleaning_dataframe_label_unread :
  well_formed_headers headers_only_sheet 0 /\
  In "Total" (period_labels headers_only_sheet 0) /\
  to_datetime_scalar sample_pandas "Total" = None /\
  parses sample_pandas (column_format sample_pandas (period_labels headers_only_sheet 0))
         "Total" = false /\
  cleaning_dataframe sample_pandas headers_only_sheet = Ok [].
Proof.
  split; [|split; [|split; [|split]]]; try reflexivity.
  - repeat split. discriminate.
  - cbn. tauto.
Qed.

(** C9, amended: the two conversions differ.  On a sheet with at least one
    data row, a period label that cannot be converted to a date makes the
    cleaner raise, the row is not dropped silently: a ValueError when the
    label does not match the format guessed from the first label, a date
    parsing error when no format was guessed and the label is no date on its
    own.  On a sheet without data rows no label is converted, and the empty
    table comes back.  A value that is no number never raises: whatever the
    cells hold, the cleaner returns once the labels can be converted, the
    value has become NaN and its row is not in the result. *)
Theorem cleaning_dataframe_asymmetric (pd : Pandas) (df : DataFrame) (p : nat) :
  well_formed_headers df p ->
  (forall i,
      In i (periods df p) -> data df <> [] ->
      parses pd (sheet_format pd df p) (nth i (columns df) "") = false ->
      exists err,
        cleaning_dataframe pd df = Raise err /\
        ((sheet_format pd df p <> None /\ err = ValueError) \/
         (sheet_format pd df p = None /\ exists s, err = DateParseError s))) /\
  (data df = [] -> cleaning_dataframe pd df = Ok []) /\
  (labels_convert pd df p ->
   exists out,
     cleaning_dataframe pd df = Ok out /\
     Forall (fun o => is_nan (HICP o) = false) out /\
     forall i row s,
       In i (periods df p) -> In row (data df) ->
       nth i row nan = CStr s -> floatify pd s = None ->
       HICP (observe pd (sheet_format pd df p) df (nth p (retained df) 0) i row)
       = S754_nan /\
       ~ In (observe pd (sheet_format pd df p) df (nth p (retained df) 0) i row) out).
Proof.
  intros Hwf. split; [|split].
  - intros i Hi Hrows Hlabel.
    exact (cleaning_dataframe_failure pd df p _ Hwf
             (melted_label_In df p i Hi Hrows) Hlabel).
  - exact (cleaning_dataframe_headers_only pd df p Hwf).
  - intros Hparse.
    pose proof (cleaning_dataframe_success pd df p Hwf Hparse) as Hok.
    eexists. split; [exact Hok|].
    assert (Hall : Forall (fun o => is_nan (HICP o) = false)
                     (dropna (long_table pd (sheet_format pd df p) df
                                         (nth p (retained df) 0) (periods df p)))).
    { apply Forall_forall. intros o Ho. unfold dropna in Ho.
      apply filter_In in Ho as [_ Ho]. apply negb_true_iff in Ho.
      unfold incomplete in Ho. now apply orb_false_iff in Ho. }
    split; [exact Hall|].
    intros i row s Hi Hrow Hcell Hfl.
    assert (Hnan : HICP (observe pd (sheet_format pd df p) df
                                 (nth p (retained df) 0) i row) = S754_nan).
    { unfold observe. cbn [HICP]. rewrite Hcell. now apply to_numeric_text. }
    split; [exact Hnan|].
    intros Hin. rewrite Forall_forall in Hall.
    specialize (Hall _ Hin). rewrite Hnan in Hall. discriminate.
Qed.

Lemma cleaning_dataframe_asymmetric_witness :
  exists err,
    cleaning_dataframe sample_pandas total_sheet = Raise err /\
    ((sheet_format sample_pandas total_sheet 0 <> None /\ err = ValueError) \/
     (sheet_format sample_pandas total_sheet 0 = None /\
      exists s, err = DateParseError s)).
Proof.
  refine (proj1 (cleaning_dataframe_asymmetric sample_pandas total_sheet 0 _) 3 _ _ _).
  - repeat split. discriminate.
  - cbn. tauto.
  - discriminate.
  - reflexivity.
Defined.

(** ** The order of the rows *)

Lemma StronglySorted_seq (a n : nat) : StronglySorted lt (seq a n).
Proof.
  revert a. induction n as [|n IH]; intros a; simpl; constructor.
  - apply IH.
  - apply Forall_forall. intros x Hx. apply in_seq in Hx. lia.
Qed.

Lemma StronglySorted_filter (f : nat -> bool) (l : list nat) :
  StronglySorted lt l -> StronglySorted lt (filter f l).
Proof.
  induction 1 as [|a l Hl IH Ha]; simpl; [constructor|].
  destruct (f a); [|assumption].
  constructor; [assumption|].
  apply Forall_forall. intros x Hx. apply filter_In in Hx as [Hx _].
  rewrite Forall_forall in Ha. now apply Ha.
Qed.

Lemma StronglySorted_retained (df : DataFrame) : StronglySorted lt (retained df).
Proof.
  unfold retained. constructor.
  - apply StronglySorted_filter, StronglySorted_seq.
  - apply Forall_forall. intros x Hx. apply filter_In in Hx as [_ Hx].
    destruct x; [discriminate | lia].
Qed.

Lemma StronglySorted_nth (l : list nat) :
  StronglySorted lt l ->
  forall q1 q2, q1 < q2 < length l -> nth q1 l 0 < nth q2 l 0.
Proof.
  induction 1 as [|a l Hl IH Ha]; intros q1 q2 Hq; simpl in Hq; [lia|].
  destruct q2 as [|q2]; [lia|]. destruct q1 as [|q1]; simpl.
  - rewrite Forall_forall in Ha. apply Ha, nth_In. lia.
  - apply IH. lia.
Qed.

Lemma StronglySorted_positions (l qs : list nat) :
  StronglySorted lt l -> StronglySorted lt qs ->
  Forall (fun q => q < length l) qs ->
  StronglySorted lt (map (fun q => nth q l 0) qs).
Proof.
  intros Hl Hqs. induction Hqs as [|q qs Hqs IH Hq]; intros Hlen; simpl; constructor.
  - apply IH. now inversion Hlen.
  - apply Forall_forall. intros x Hx. apply in_map_iff in Hx as [q' [<- Hq']].
    rewrite Forall_forall in Hq, Hlen.
    apply (StronglySorted_nth l Hl). split; [now apply Hq|].
    apply Hlen. now right.
Qed.

(** The period columns are listed left to right. *)
Lemma StronglySorted_periods (df : DataFrame) (p : nat) :
  StronglySorted lt (periods df p).
Proof.
  unfold periods. apply StronglySorted_positions.
  - apply StronglySorted_retained.
  - apply StronglySorted_filter, StronglySorted_seq.
  - apply Forall_forall. intros q Hq. apply filter_In in Hq as [Hq _].
    apply in_seq in Hq. lia.
Qed.

(** In a list made of blocks of [n] items, the item [r] of the block [c]
    is at position [c * n + r]. *)
Lemma nth_error_blocks {A B : Type} (g : A -> list B) (n : nat) (d : A) (l : list A) :
  (forall x, length (g x) = n) ->
  forall c r, c < length l -> r < n ->
    nth_error (flat_map g l) (c * n + r) = nth_error (g (nth c l d)) r.
Proof.
  intros Hg. induction l as [|x l IH]; intros c r Hc Hr; simpl in Hc; [lia|].
  destruct c as [|c]; simpl.
  - apply nth_error_app1. now rewrite Hg.
  - rewrite nth_error_app2 by (rewrite Hg; lia).
    rewrite Hg. replace (n + c * n + r - n) with (c * n + r) by lia.
    apply IH; lia.
Qed.

(** C10: the rows that the cleaner returns are the long table in column
    major order without its incomplete rows.  The long table lists the
    period columns left to right and, under each, one observation per input
    row from top to bottom, so that the observation of the row [r] in the
    period column number [c] is at position [c * rows + r]; the final drop
    is a filter, which keeps the order of the rows that survive. *)
Theorem cleaning_dataframe_column_major (pd : Pandas) (df : DataFrame) :
  (forall out,
      cleaning_dataframe pd df = Ok out ->
      exists p,
        well_formed_headers df p /\
        out = filter (fun o => negb (incomplete o))
                     (long_table pd (sheet_format pd df p) df
                                 (nth p (retained df) 0) (periods df p))) /\
  (forall p,
      well_formed_headers df p ->
      labels_convert pd df p ->
      cleaning_dataframe pd df
      = Ok (filter (fun o => negb (incomplete o))
                   (long_table pd (sheet_format pd df p) df
                               (nth p (retained df) 0) (periods df p)))) /\
  (forall p k format,
      StronglySorted lt (periods df p) /\
      length (long_table pd format df k (periods df p))
      = length (periods df p) * length (data df) /\
      forall c r,
        c < length (periods df p) -> r < length (data df) ->
        nth_error (long_table pd format df k (periods df p)) (c * length (data df) + r)
        = Some (observe pd format df k (nth c (periods df p) 0) (nth r (data df) []))).
Proof.
  split; [|split].
  - intros out H.
    destruct (cleaning_dataframe_inv pd df out H) as [p [Hwf [_ ->]]].
    exists p. split; [assumption | reflexivity].
  - intros p Hwf Hparse.
    exact (cleaning_dataframe_success pd df p Hwf Hparse).
  - intros p k format. split; [apply StronglySorted_periods | split].
    + unfold long_table. rewrite length_flat_map.
      induction (periods df p) as [|i l IH]; simpl; [reflexivity|].
      now rewrite length_map, IH.
    + intros c r Hc Hr. unfold long_table.
      rewrite (nth_error_blocks _ (length (data df)) 0%nat) by
        (try (intros; apply length_map); assumption).
      rewrite nth_error_map, (nth_error_nth' _ []) by assumption.
      reflexivity.
Qed.

Lemma cleaning_dataframe_column_major_witness :
  exists p,
    well_formed_headers scenario_sheet p /\
    [fr_2020_01; de_2020_02]
    = filter (fun o => negb (incomplete o))
             (long_table sample_pandas (sheet_format sample_pandas scenario_sheet p)
                         scenario_sheet
                         (nth p (retained scenario_sheet) 0) (periods scenario_sheet p)).
Proof.
  apply (proj1 (cleaning_dataframe_column_major sample_pandas scenario_sheet)).
  reflexivity.
Defined.

(** * Properties of the summary loader *)

Lemma get_indexer_cons (k c : string) (cols : list string) :
  get_indexer k (c :: cols)
  = (if String.eqb c k then [0] else []) ++ map S (get_indexer k cols).
Proof.
  unfold get_indexer. cbn [length seq filter nth].
  rewrite <- seq_shift, filter_map_swap. cbn [nth].
  now destruct (String.eqb c k).
Qed.

Lemma get_indexer_absent (k : string) (cols : list string) :
  ~ In k cols -> get_indexer k cols = [].
Proof.
  intros H. unfold get_indexer. apply filter_none.
  intros i Hi. apply in_seq in Hi. apply String.eqb_neq.
  intros E. apply H. rewrite <- E. apply nth_In. lia.
Qed.

(** In a frame whose labels are distinct a label has one position. *)
Lemma get_indexer_unique (k : string) (cols : list string) :
  NoDup cols -> In k cols -> exists j, get_indexer k cols = [j].
Proof.
  induction 1 as [|c cols Hc Hnd IH]; intros Hin; [contradiction|].
  rewrite get_indexer_cons.
  destruct (String.eqb_spec c k) as [-> | Hne].
  - exists 0. now rewrite (get_indexer_absent k cols Hc).
  - destruct Hin as [E | Hin]; [contradiction|].
    destruct (IH Hin) as [j Hj]. exists (S j). now rewrite Hj.
Qed.

Lemma get_indexer_lookup (cols : list string) :
  forall (row : list cell) (k : string) (j : nat),
    get_indexer k cols = [j] -> nth j row nan = lookup cols row k.
Proof.
  induction cols as [|c cols IH]; intros row k j H; [discriminate|].
  rewrite get_indexer_cons in H.
  destruct row as [|x row]; simpl.
  - now destruct j.
  - destruct (String.eqb c k).
    + now injection H as <- _.
    + simpl in H. destruct (get_indexer k cols) as [|j' [|? ?]] eqn:E;
        try discriminate.
      injection H as <-. now apply IH.
Qed.

Lemma select_rows_map {A : Type} (f : A -> bool) (rows : list A) :
  select_rows (map f rows) rows = filter f rows.
Proof.
  induction rows as [|r rows IH]; simpl; [reflexivity|].
  now rewrite IH.
Qed.

Lemma filter_map_filter {A B : Type} (g : B -> bool) (f : A -> B) (h : A -> bool)
      (l : list A) :
  filter g (map f (filter h l)) = map f (filter (fun x => h x && g (f x)) l).
Proof.
  induction l as [|x l IH]; simpl; [reflexivity|].
  destruct (h x); simpl; [|exact IH].
  destruct (g (f x)); simpl; now rewrite IH.
Qed.

Lemma negb_existsb_map {A B : Type} (f : B -> bool) (g : A -> B) (l : list A) :
  negb (existsb f (map g l)) = forallb (fun x => negb (f (g x))) l.
Proof.
  induction l as [|x l IH]; simpl; [reflexivity|].
  now rewrite negb_orb, IH.
Qed.

(** Renaming the keys of a dictionary by it yields its values. *)
Lemma rename_keys (d : dict) :
  NoDup (keys d) -> map (rename_label d) (keys d) = map snd d.
Proof.
  unfold keys. induction d as [|[k v] d IH]; intros H; [reflexivity|].
  cbn [map fst snd] in *. inversion H as [|? ? Hk Hd]; subst.
  f_equal.
  - unfold rename_label. cbn [dict_get]. now rewrite String.eqb_refl.
  - rewrite <- (IH Hd). apply map_ext_in. intros k' Hk'.
    unfold rename_label. cbn [dict_get].
    destruct (String.eqb_spec k k') as [-> | _]; [contradiction | reflexivity].
Qed.

(** With distinct labels [loc] picks, for each label, the cell under it. *)
Lemma loc_lookup (mask : list bool) (labels : list string) (df : DataFrame) :
  NoDup (columns df) ->
  (forall k, In k labels -> In k (columns df)) ->
  loc mask labels df
  = Ok {| columns := labels;
          data := map (fun row => map (lookup (columns df) row) labels)
                      (select_rows mask (data df)) |}.
Proof.
  intros Hnd Hin. unfold loc.
  set (pos := fun k => hd 0 (get_indexer k (columns df))).
  assert (Hpos : forall k, In k labels -> get_indexer k (columns df) = [pos k]).
  { intros k Hk. destruct (get_indexer_unique k _ Hnd (Hin k Hk)) as [j Hj].
    unfold pos. now rewrite Hj. }
  assert (HmapM : mapM (fun l => match get_indexer l (columns df) with
                                 | [] => Raise (KeyError l)
                                 | js => Ok js
                                 end) labels
                  = Ok (map (fun k => [pos k]) labels)).
  { clear Hin. induction labels as [|k labels IH]; [reflexivity|].
    cbn [mapM map]. rewrite (Hpos k (or_introl eq_refl)). cbn [bind].
    rewrite IH; [reflexivity|]. intros k' Hk'. apply Hpos. now right. }
  rewrite HmapM. cbn [bind].
  assert (Hconcat : concat (map (fun k => [pos k]) labels) = map pos labels).
  { clear. induction labels as [|k labels IH]; simpl; [reflexivity | now rewrite IH]. }
  rewrite Hconcat. f_equal. f_equal.
  - rewrite map_map. rewrite <- (map_id labels) at 2.
    apply map_ext_in. intros k Hk.
    assert (Hj : In (pos k) (get_indexer k (columns df)))
      by (rewrite (Hpos k Hk); now left).
    now apply get_indexer_In in Hj.
  - apply map_ext. intros row. rewrite map_map.
    apply map_ext_in. intros k Hk.
    apply get_indexer_lookup. now apply Hpos.
Qed.

(** C8: on a summary sheet as read, with distinct labels, and a map whose
    keys are labels of the sheet, the loader keeps only the columns named by
    the keys, in the order of the keys and renamed by the map; it removes
    the rows whose first selected column reads Contents and the rows with a
    missing value in a selected column, and it keeps every other row, in the
    order of the sheet. *)
Theorem load_summary_rows (df : DataFrame) (columns_map : dict)
        (first : string) (more : list string) :
  NoDup (columns df) ->
  NoDup (keys columns_map) ->
  keys columns_map = first :: more ->
  (forall k, In k (keys columns_map) -> In k (columns df)) ->
  load_summary df columns_map
  = Ok {| columns := map snd columns_map;
          data := map (fun row => map (lookup (columns df) row) (keys columns_map))
                      (filter (summary_row_kept (columns df) first (keys columns_map))
                              (data df)) |}.
Proof.
  intros Hnd Hkeys Hfirst Hin. unfold load_summary.
  rewrite Hfirst. cbn [first_item bind]. rewrite <- Hfirst.
  assert (Hf : In first (columns df)) by (apply Hin; rewrite Hfirst; now left).
  destruct (get_indexer_unique first _ Hnd Hf) as [j Hj].
  unfold getitem. rewrite Hj. cbn [bind].
  rewrite (loc_lookup _ _ df Hnd Hin). cbn [bind].
  unfold rename, reset_index, dropna_frame. cbn [columns data].
  rewrite (rename_keys columns_map Hkeys). f_equal. f_equal.
  unfold column. rewrite map_map, select_rows_map, filter_map_filter.
  f_equal. apply filter_ext. intros row. unfold summary_row_kept.
  now rewrite (get_indexer_lookup _ row first j Hj), negb_existsb_map.
Qed.

Lemma load_summary_rows_witness :
  load_summary summary_sheet main_columns_map
  = Ok {| columns := ["sheet_name"; "base"; "description"];
          data := [ [CStr "Sheet 1"; CStr "2015=100"; CStr "All-items HICP"];
                    [CStr "Sheet 3"; CStr "2015=100"; CStr "Bread and cereals"] ] |}.
Proof.
  refine (load_summary_rows summary_sheet main_columns_map "Unnamed: 1"
            ["Unnamed: 3"; "Unnamed: 4"] _ _ eq_refl _).
  - repeat constructor; simpl; intuition discriminate.
  - repeat constructor; simpl; intuition discriminate.
  - intros k Hk. cbn in Hk |- *. intuition.
Defined.

(** * Properties of the dataset loaders *)

Lemma bind_assoc {A B C : Type} (r : result A) (f : A -> result B) (g : B -> result C) :
  bind (bind r f) g = bind r (fun a => bind (f a) g).
Proof. now destruct r. Qed.

Lemma nth_keys_of_value (d : dict) (k v : string) (j : nat) :
  NoDup (map snd d) -> In (k, v) d -> nth j (map snd d) "" = v ->
  j < length d -> nth j (keys d) "" = k.
Proof.
  unfold keys. revert j.
  induction d as [|[k' v'] d IH]; intros j Hnd Hin Hj Hlt; [contradiction|].
  cbn [map fst snd] in *. apply NoDup_cons_iff in Hnd as [Hv' Hd].
  destruct j as [|j]; cbn [nth] in *.
  - destruct Hin as [[= -> _] | Hin]; [reflexivity|].
    exfalso. apply Hv'. apply in_map_iff. exists (k, v). now split.
  - destruct Hin as [[= -> ->] | Hin].
    + exfalso. apply Hv'. rewrite <- Hj. apply nth_In. rewrite length_map.
      simpl in Hlt. lia.
    + apply IH; try assumption. simpl in Hlt. lia.
Qed.

(** A column of the loaded summary, by its new name, is the column of the
    sheet under the key that the map renames to it. *)
Lemma getitem_renamed (cols : list string) (d : dict) (k v : string)
      (rows : list (list cell)) :
  NoDup (map snd d) -> In (k, v) d ->
  getitem v {| columns := map snd d;
               data := map (fun row => map (lookup cols row) (keys d)) rows |}
  = Ok (map (fun row => lookup cols row k) rows).
Proof.
  intros Hnd Hin. unfold getitem. cbn [columns].
  assert (Hv : In v (map snd d)) by (apply in_map_iff; now exists (k, v)).
  destruct (get_indexer_unique v _ Hnd Hv) as [j Hj]. rewrite Hj.
  assert (Hjin : In j (get_indexer v (map snd d))) by (rewrite Hj; now left).
  apply get_indexer_In in Hjin as [Hlt Hnth]. rewrite length_map in Hlt.
  f_equal. unfold column. cbn [data]. rewrite map_map.
  apply map_ext. intros row.
  rewrite (nth_map_lt _ _ _ _ "") by (unfold keys; now rewrite length_map).
  now rewrite (nth_keys_of_value d k v j Hnd Hin Hnth Hlt).
Qed.

(** What the summary loader returns on a sheet with distinct labels that
    has the keys of the map. *)
Lemma load_summary_result (df : DataFrame) (columns_map : dict) :
  NoDup (columns df) ->
  NoDup (keys columns_map) ->
  columns_map <> [] ->
  (forall k, In k (keys columns_map) -> In k (columns df)) ->
  load_summary df columns_map
  = Ok {| columns := map snd columns_map;
          data := map (fun row => map (lookup (columns df) row) (keys columns_map))
                      (filter (summary_row_kept (columns df) (hd "" (keys columns_map))
                                                (keys columns_map))
                              (data df)) |}.
Proof.
  intros Hnd Hkeys Hne Hin.
  assert (Hk : exists first more, keys columns_map = first :: more).
  { destruct columns_map as [|[k v] d]; [contradiction|]. now exists k, (keys d). }
  destruct Hk as [first [more Hfirst]].
  assert (Hitem : first_item (keys columns_map) = Ok first) by now rewrite Hfirst.
  assert (Hhd : hd "" (keys columns_map) = first) by now rewrite Hfirst.
  unfold load_summary. cbv zeta. rewrite Hitem, Hhd. cbn [bind].
  assert (Hf : In first (columns df)) by (apply Hin; rewrite Hfirst; now left).
  destruct (get_indexer_unique first _ Hnd Hf) as [j Hj].
  unfold getitem. rewrite Hj. cbn [bind].
  rewrite (loc_lookup _ _ df Hnd Hin). cbn [bind].
  unfold rename, reset_index, dropna_frame. cbn [columns data].
  rewrite rename_keys by assumption. f_equal. f_equal.
  unfold column. rewrite map_map, select_rows_map, filter_map_filter.
  f_equal. apply filter_ext. intros row. unfold summary_row_kept.
  now rewrite (get_indexer_lookup _ row first j Hj), negb_existsb_map.
Qed.

Section LoaderFacts.

Variable pd : Pandas.
Variable read_excel : string -> cell -> header_rows -> result DataFrame.

Lemma load_sheets_step {R : Type} (file : string) (header : header_rows)
      (decorate : cell -> cell -> Observation -> R) (e : cell * cell)
      (entries : list (cell * cell)) :
  load_sheets pd read_excel file header decorate (e :: entries)
  = (clean_df <- clean_sheet pd read_excel file header (fst e) ;;
     frames <- load_sheets pd read_excel file header decorate entries ;;
     Ok (map (decorate (fst e) (snd e)) clean_df :: frames)).
Proof.
  destruct e as [name description]. cbn [load_sheets fst snd].
  unfold clean_sheet. now rewrite bind_assoc.
Qed.


(** The loop stops at the first sheet that fails, with its exception. *)
Lemma load_sheets_first_failure {R : Type} (file : string) (header : header_rows)
      (decorate : cell -> cell -> Observation -> R)
      (before after : list (cell * cell)) (e : cell * cell)
      (outs : list (list Observation)) (err : exn) :
  Forall2 (fun e out => clean_sheet pd read_excel file header (fst e) = Ok out)
          before outs ->
  clean_sheet pd read_excel file header (fst e) = Raise err ->
  load_sheets pd read_excel file header decorate (before ++ e :: after) = Raise err.
Proof.
  intros Hbefore He.
  induction Hbefore as [|e' out before outs He' _ IH]; cbn [app].
  - now rewrite load_sheets_step, He.
  - rewrite load_sheets_step, He'. cbn [bind]. now rewrite IH.
Qed.

(** Whatever the loop returns was cleaned sheet by sheet. *)
Lemma load_sheets_inv {R : Type} (file : string) (header : header_rows)
      (decorate : cell -> cell -> Observation -> R)
      (entries : list (cell * cell)) (frames : list (list R)) :
  load_sheets pd read_excel file header decorate entries = Ok frames ->
  exists outs,
    Forall2 (fun e out => clean_sheet pd read_excel file header (fst e) = Ok out)
            entries outs /\
    frames = map (fun eo => map (decorate (fst (fst eo)) (snd (fst eo))) (snd eo))
                 (combine entries outs).
Proof.
  revert frames. induction entries as [|e entries IH]; intros frames H.
  - injection H as <-. exists []. split; [constructor | reflexivity].
  - rewrite load_sheets_step in H.
    destruct (clean_sheet pd read_excel file header (fst e)) as [out|] eqn:He;
      [|discriminate].
    cbn [bind] in H.
    destruct (load_sheets pd read_excel file header decorate entries) as [fs|] eqn:Hfs;
      [|discriminate].
    injection H as <-. destruct (IH fs eq_refl) as [outs [Hall ->]].
    exists (out :: outs). split; [now constructor | reflexivity].
Qed.

(** The shared steps on a summary sheet with distinct labels that has the
    keys of the map: the loop runs over the entries of the summary. *)
Lemma assemble_entries {R : Type} (file : string) (columns_map : dict)
      (header : header_rows) (decorate : cell -> cell -> Observation -> R)
      (df : DataFrame) (name_key description_key : string) :
  read_excel file (CStr "Summary") HeaderDefault = Ok df ->
  NoDup (columns df) ->
  (forall k, In k (keys columns_map) -> In k (columns df)) ->
  NoDup (keys columns_map) -> NoDup (map snd columns_map) ->
  In (name_key, "sheet_name") columns_map ->
  In (description_key, "description") columns_map ->
  assemble pd read_excel file columns_map header decorate
  = (all_frames <- load_sheets pd read_excel file header decorate
                     (summary_entries df columns_map name_key description_key) ;;
     pd_concat all_frames).
Proof.
  intros Hread Hnd Hin Hkeys Hvals Hname Hdesc.
  unfold assemble, load_summary_from_file. rewrite Hread. cbn [bind].
  rewrite load_summary_result; try assumption.
  2:{ intros ->. contradiction. }
  cbn [bind].
  rewrite (getitem_renamed _ _ name_key) by assumption. cbn [bind].
  rewrite (getitem_renamed _ _ description_key) by assumption. cbn [bind].
  unfold summary_entries.
  set (kept := filter _ (data df)).
  replace (combine (map (fun row => lookup (columns df) row name_key) kept)
                   (map (fun row => lookup (columns df) row description_key) kept))
    with (map (fun row => (lookup (columns df) row name_key,
                           lookup (columns df) row description_key)) kept);
    [reflexivity|].
  induction kept as [|row kept IH]; simpl; [reflexivity | now rewrite IH].
Qed.


End LoaderFacts.

Ltac distinct_strings := repeat constructor; simpl; intuition discriminate.

Lemma main_columns_map_keys (df : DataFrame) :
  (forall k, In k ["Unnamed: 1"; "Unnamed: 3"; "Unnamed: 4"] -> In k (columns df)) ->
  forall k, In k (keys main_columns_map) -> In k (columns df).
Proof. intros H k Hk. now apply H. Qed.











(** X4: the loaders fail fast.  When the summary sheet cannot be read its
    exception is the result; otherwise the exception of the first listed
    sheet that cannot be read or cleaned is the result of the main and of
    the detailed loader, whatever the sheets listed after it hold: no
    partial dataset is returned. *)
Theorem load_main_dataset_fail_fast (pd : Pandas)
        (read_excel : string -> cell -> header_rows -> result DataFrame)
        (file : string) :
  (forall err,
      read_excel file (CStr "Summary") HeaderDefault = Raise err ->
      load_main_dataset pd read_excel file = Raise err /\
      load_detailed_dataset pd read_excel file = Raise err) /\
  (forall df before e after outs err,
      read_excel file (CStr "Summary") HeaderDefault = Ok df ->
      NoDup (columns df) ->
      (forall k, In k ["Unnamed: 1"; "Unnamed: 3"; "Unnamed: 4"] -> In k (columns df)) ->
      summary_entries df main_columns_map "Unnamed: 1" "Unnamed: 4"
      = before ++ e :: after ->
      Forall2 (fun e out => clean_sheet pd read_excel file (HeaderRows [8]) (fst e) = Ok out)
              before outs ->
      clean_sheet pd read_excel file (HeaderRows [8]) (fst e) = Raise err ->
      load_main_dataset pd read_excel file = Raise err /\
      load_detailed_dataset pd read_excel file = Raise err).
Proof.
  split.
  - intros err Hread.
    unfold load_detailed_dataset, load_main_dataset, assemble, load_summary_from_file.
    rewrite Hread. split; reflexivity.
  - intros df before e after outs err Hread Hnd Hin Hsplit Hbefore He.
    unfold load_detailed_dataset, load_main_dataset.
    rewrite !(assemble_entries pd read_excel file main_columns_map (HeaderRows [8]) _ df
                "Unnamed: 1" "Unnamed: 4");
      try assumption; try distinct_strings; try (now left);
      try (right; right; now left).
    rewrite Hsplit.
    rewrite !(load_sheets_first_failure pd read_excel file (HeaderRows [8]) _
                before after e outs err Hbefore He).
    split; reflexivity.
Qed.

Lemma load_main_dataset_fail_fast_witness :
  load_main_dataset sample_pandas sample_read_excel "broken.xlsx"
  = Raise ValueError /\
  load_detailed_dataset sample_pandas sample_read_excel "broken.xlsx"
  = Raise ValueError.
Proof.
  refine (proj2 (load_main_dataset_fail_fast sample_pandas sample_read_excel "broken.xlsx")
                summary_sheet [(CStr "Sheet 1", CStr "All-items HICP")]
                (CStr "Sheet 3", CStr "Bread and cereals") []
                [[fr_2020_01; de_2020_02]] _ eq_refl _ _ eq_refl _ eq_refl).
  - distinct_strings.
  - intros k Hk. cbn in Hk |- *. intuition.
  - repeat constructor.
Defined.

(** X5: a summary sheet without entry, each of its rows reading Contents or
    nothing in the sheet name column, makes the three loaders raise a
    ValueError: there is no frame to concatenate. *)
Theorem load_datasets_no_entries (pd : Pandas)
        (read_excel : string -> cell -> header_rows -> result DataFrame)
        (file : string) (df : DataFrame) :
  read_excel file (CStr "Summary") HeaderDefault = Ok df ->
  NoDup (columns df) ->
  (forall k, In k ["Unnamed: 1"; "Unnamed: 3"; "Unnamed: 4"] -> In k (columns df)) ->
  (forall row, In row (data df) ->
               lookup (columns df) row "Unnamed: 1" = CStr "Contents" \/
               isna (lookup (columns df) row "Unnamed: 1") = true) ->
  load_main_dataset pd read_excel file = Raise ValueError /\
  load_detailed_dataset pd read_excel file = Raise ValueError /\
  load_weights_dataset pd read_excel file = Raise ValueError.
Proof.
  intros Hread Hnd Hin Hrows.
  assert (Hnone : forall columns_map description_key,
             hd "" (keys columns_map) = "Unnamed: 1" ->
             In "Unnamed: 1" (keys columns_map) ->
             summary_entries df columns_map "Unnamed: 1" description_key = []).
  { intros columns_map description_key Hhd Hkey. unfold summary_entries.
    rewrite filter_none; [reflexivity|].
    intros row Hrow. unfold summary_row_kept. rewrite Hhd.
    destruct (Hrows row Hrow) as [E | E].
    - now rewrite E.
    - apply andb_false_iff. right.
      apply not_true_is_false. intros Hall. rewrite forallb_forall in Hall.
      specialize (Hall _ Hkey). now rewrite E in Hall. }
  unfold load_main_dataset, load_detailed_dataset, load_weights_dataset.
  rewrite !(assemble_entries pd read_excel file main_columns_map (HeaderRows [8]) _ df
              "Unnamed: 1" "Unnamed: 4");
    try assumption; try distinct_strings; try (now left);
    try (right; right; now left).
  rewrite (assemble_entries pd read_excel file weights_columns_map (HeaderRows [7]) _ df
             "Unnamed: 1" "Unnamed: 3");
    try assumption; try distinct_strings; try (now left); try (right; now left).
  2:{ intros k Hk. apply Hin. cbn in Hk |- *. intuition. }
  rewrite !Hnone by (try reflexivity; now left).
  repeat split; reflexivity.
Qed.

Lemma load_datasets_no_entries_witness :
  load_main_dataset sample_pandas contents_read_excel "main.xlsx" = Raise ValueError /\
  load_detailed_dataset sample_pandas contents_read_excel "main.xlsx" = Raise ValueError /\
  load_weights_dataset sample_pandas contents_read_excel "main.xlsx" = Raise ValueError.
Proof.
  refine (load_datasets_no_entries sample_pandas contents_read_excel "main.xlsx"
            contents_sheet eq_refl _ _ _).
  - distinct_strings.
  - intros k Hk. cbn in Hk |- *. intuition.
  - intros row Hrow. cbn in Hrow.
    destruct Hrow as [<- | [<- | []]]; [now left | now right].
Defined.

Lemma where_category_disjoint (c1 c2 : string) (items : list Item) (it : Item) :
  c1 <> c2 -> In it (where_category c1 items) -> ~ In it (where_category c2 items).
Proof.
  unfold where_category. intros Hne H1 H2.
  apply filter_In in H1 as [_ H1]. apply filter_In in H2 as [_ H2].
  apply String.eqb_eq in H1, H2. congruence.
Qed.

(** X6: the top-level loader returns exactly when the three loaders return,
    and then holds their results; it loads the main workbook first, the
    detailed one next and the weights last, and the first exception is its
    result.  In what it returns the three views are the rows of the detailed
    dataset of the categories Food, Housing & Energy and Transport, and no
    row is in two views. *)
Theorem load_all_data_results (pd : Pandas)
        (read_excel : string -> cell -> header_rows -> result DataFrame)
        (file_main file_details file_weights : string) :
  (forall d,
      load_all_data pd read_excel file_main file_details file_weights = Ok d <->
      load_main_dataset pd read_excel file_main = Ok (df_all d) /\
      load_detailed_dataset pd read_excel file_details
      = Ok (df_all_items d, df_food d, df_housing_energy d, df_transport d) /\
      load_weights_dataset pd read_excel file_weights = Ok (df_weights d)) /\
  (forall d,
      load_all_data pd read_excel file_main file_details file_weights = Ok d ->
      df_food d = where_category "Food" (df_all_items d) /\
      df_housing_energy d = where_category "Housing & Energy" (df_all_items d) /\
      df_transport d = where_category "Transport" (df_all_items d) /\
      forall it,
        (In it (df_food d) -> ~ In it (df_housing_energy d) /\ ~ In it (df_transport d)) /\
        (In it (df_housing_energy d) -> ~ In it (df_transport d))) /\
  (forall err,
      load_main_dataset pd read_excel file_main = Raise err ->
      load_all_data pd read_excel file_main file_details file_weights = Raise err) /\
  (forall all err,
      load_main_dataset pd read_excel file_main = Ok all ->
      load_detailed_dataset pd read_excel file_details = Raise err ->
      load_all_data pd read_excel file_main file_details file_weights = Raise err) /\
  (forall all details err,
      load_main_dataset pd read_excel file_main = Ok all ->
      load_detailed_dataset pd read_excel file_details = Ok details ->
      load_weights_dataset pd read_excel file_weights = Raise err ->
      load_all_data pd read_excel file_main file_details file_weights = Raise err).
Proof.
  assert (Hiff : forall d,
      load_all_data pd read_excel file_main file_details file_weights = Ok d <->
      load_main_dataset pd read_excel file_main = Ok (df_all d) /\
      load_detailed_dataset pd read_excel file_details
      = Ok (df_all_items d, df_food d, df_housing_energy d, df_transport d) /\
      load_weights_dataset pd read_excel file_weights = Ok (df_weights d)).
  { intros d. unfold load_all_data. split.
    - destruct (load_main_dataset pd read_excel file_main) as [all|]; [|discriminate].
      destruct (load_detailed_dataset pd read_excel file_details)
        as [[[[items food] housing] transport]|]; [|discriminate].
      destruct (load_weights_dataset pd read_excel file_weights) as [weights|];
        [|discriminate].
      cbn [bind]. intros [= <-]. repeat split.
    - intros [-> [-> ->]]. cbn [bind]. now destruct d. }
  split; [exact Hiff | split; [|split; [|split]]].
  - intros d Hd. apply Hiff in Hd as [_ [Hdetails _]].
    unfold load_detailed_dataset in Hdetails.
    destruct (assemble pd read_excel file_details main_columns_map (HeaderRows [8])
                with_category) as [items|]; [|discriminate].
    cbn [bind] in Hdetails. injection Hdetails as <- <- <- <-.
    split; [reflexivity | split; [reflexivity | split; [reflexivity|]]].
    intros it. split; intros H; [split|];
      (eapply where_category_disjoint; [|exact H]; discriminate).
  - intros err H. unfold load_all_data. now rewrite H.
  - intros all err H1 H2. unfold load_all_data. now rewrite H1, H2.
  - intros all details err H1 H2 H3. unfold load_all_data. now rewrite H1, H2, H3.
Qed.

Lemma load_all_data_results_witness :
  load_all_data sample_pandas sample_read_excel "broken.xlsx" "details.xlsx" "weights.xlsx"
  = Raise ValueError.
Proof.
  apply (proj1 (proj2 (proj2 (load_all_data_results sample_pandas sample_read_excel
                                "broken.xlsx" "details.xlsx" "weights.xlsx")))).
  reflexivity.
Defined.

(** * Further properties of the sheet cleaner *)

Lemma flat_map_nil {A B : Type} (l : list A) :
  flat_map (fun _ : A => @nil B) l = [].
Proof. induction l; simpl; auto. Qed.

(** X7: a sheet with well-formed headers and no data row is cleaned to the
    empty table, whatever its period labels are: a label is converted once
    per row, so that a label that is no date does not raise there. *)
Theorem cleaning_dataframe_no_rows (pd : Pandas) (df : DataFrame) (p : nat) :
  well_formed_headers df p -> data df = [] ->
  cleaning_dataframe pd df = Ok [].
Proof.
  intros Hwf Hdata.
  rewrite (cleaning_dataframe_success pd df p Hwf).
  - unfold long_table. rewrite Hdata. cbn [map]. now rewrite flat_map_nil.
  - intros s Hs. unfold melted_labels in Hs.
    apply in_repeat_each in Hs as [_ Hn]. rewrite Hdata in Hn. now contradiction Hn.
Qed.

Lemma cleaning_dataframe_no_rows_witness :
  to_datetime_scalar sample_pandas "Total" = None /\
  cleaning_dataframe sample_pandas headers_only_sheet = Ok [].
Proof.
  split; [reflexivity|].
  apply (cleaning_dataframe_no_rows sample_pandas headers_only_sheet 0);
    [|reflexivity].
  repeat split. discriminate.
Defined.

(** X8: the structural failures of the cleaner.  A frame without column
    raises an IndexError; a retained column called HICP raises a ValueError;
    without a retained column called TIME or Country the cleaner raises a
    KeyError; with two or more of them it raises too.  None of these returns
    a table, whatever the rows hold. *)
Theorem cleaning_dataframe_header_errors (pd : Pandas) (df : DataFrame) :
  (columns df = [] -> cleaning_dataframe pd df = Raise IndexError) /\
  (columns df <> [] -> existsb (String.eqb "HICP") (header df) = true ->
   cleaning_dataframe pd df = Raise ValueError) /\
  (columns df <> [] -> existsb (String.eqb "HICP") (header df) = false ->
   get_indexer "Country" (header df) = [] ->
   cleaning_dataframe pd df = Raise (KeyError "Country")) /\
  (forall p q l,
      get_indexer "Country" (header df) = p :: q :: l ->
      exists err, cleaning_dataframe pd df = Raise err).
Proof.
  split; [|split; [|split]].
  - intros H. unfold cleaning_dataframe. fold (retained df).
    now rewrite (iloc_empty df H).
  - intros Hne Hval. rewrite cleaning_dataframe_wide by assumption.
    unfold melt. cbn [columns wide]. now rewrite Hval.
  - intros Hne Hval Hp. rewrite cleaning_dataframe_wide by assumption.
    unfold melt. cbn [columns wide]. now rewrite Hval, Hp.
  - intros p q l Hp.
    destruct (cleaning_dataframe pd df) as [out|err] eqn:E; [|now exists err].
    destruct (cleaning_dataframe_inv pd df out E) as [p' [[_ [_ Hp']] _]].
    rewrite Hp in Hp'. discriminate.
Qed.

Lemma cleaning_dataframe_header_errors_witness :
  exists err, cleaning_dataframe sample_pandas two_country_sheet = Raise err.
Proof.
  apply (proj2 (proj2 (proj2 (cleaning_dataframe_header_errors sample_pandas
                                two_country_sheet))) 0 1 []).
  reflexivity.
Defined.

Lemma map_agree {A : Type} (f g : list cell -> A) (P : list cell -> list cell -> Prop)
      (rows1 rows2 : list (list cell)) :
  (forall r1 r2, P r1 r2 -> f r1 = g r2) ->
  Forall2 P rows1 rows2 -> map f rows1 = map g rows2.
Proof.
  intros Hfg. induction 1 as [|r1 r2 rows1 rows2 Hr _ IH]; simpl; [reflexivity|].
  now rewrite (Hfg r1 r2 Hr), IH.
Qed.

(** X9: the cleaner never reads the columns at the even positions from 2
    on.  Two frames with as many columns, the same labels on the retained
    columns and rows that agree on the retained columns are cleaned alike:
    to the same table, or to the same exception. *)
Theorem cleaning_dataframe_ignores_artifacts (pd : Pandas) (df1 df2 : DataFrame) :
  length (columns df1) = length (columns df2) ->
  (forall i, In i (retained df1) -> nth i (columns df1) "" = nth i (columns df2) "") ->
  Forall2 (agree_on_retained df1) (data df1) (data df2) ->
  cleaning_dataframe pd df1 = cleaning_dataframe pd df2.
Proof.
  intros Hlen Hlabels Hrows.
  assert (Hret : retained df2 = retained df1) by (unfold retained; now rewrite Hlen).
  assert (Hsel : iloc_columns (retained df1) df1 = iloc_columns (retained df2) df2).
  { rewrite Hret. unfold iloc_columns. rewrite Hlen.
    destruct (forallb _ (retained df1)); [|reflexivity].
    f_equal. f_equal.
    - apply map_ext_in. exact Hlabels.
    - apply (map_agree _ _ (agree_on_retained df1)); [|assumption].
      intros r1 r2 Hr. apply map_ext_in. exact Hr. }
  unfold cleaning_dataframe. fold (retained df1) (retained df2).
  now rewrite Hsel.
Qed.

Lemma cleaning_dataframe_ignores_artifacts_witness :
  cleaning_dataframe sample_pandas scenario_sheet
  = cleaning_dataframe sample_pandas scenario_sheet_other_artifacts.
Proof.
  apply cleaning_dataframe_ignores_artifacts.
  - reflexivity.
  - intros i Hi. cbn in Hi. destruct Hi as [<- | [<- | [<- | []]]]; reflexivity.
  - repeat constructor; intros i Hi; cbn in Hi;
      destruct Hi as [<- | [<- | [<- | []]]]; reflexivity.
Defined.

Lemma length_odds (n : nat) :
  length (filter (fun i => negb (i mod 2 =? 0)%nat) (seq 0 n)) = n / 2.
Proof.
  induction n as [|n IH]; [reflexivity|].
  rewrite seq_S, filter_app, length_app, IH. cbn [filter plus].
  pose proof (Nat.div_mod_eq n 2) as H1.
  pose proof (Nat.div_mod_eq (S n) 2) as H2.
  pose proof (Nat.mod_upper_bound n 2 ltac:(discriminate)) as H3.
  pose proof (Nat.mod_upper_bound (S n) 2 ltac:(discriminate)) as H4.
  destruct (Nat.eqb_spec (n mod 2) 0) as [E | E]; cbn [negb length]; lia.
Qed.

Lemma length_long_table (pd : Pandas) (format : option string) (df : DataFrame)
      (k : nat) (cols : list nat) :
  length (long_table pd format df k cols) = length cols * length (data df).
Proof.
  unfold long_table. induction cols as [|i cols IH]; [reflexivity|].
  cbn [flat_map length]. rewrite length_app, length_map, IH. lia.
Qed.

Lemma length_periods (df : DataFrame) (p : nat) :
  p < length (retained df) ->
  length (periods df p) = length (columns df) / 2.
Proof.
  intros Hp. unfold periods. rewrite length_map, length_others by assumption.
  unfold retained. cbn [length]. rewrite length_odds. lia.
Qed.

(** X11: a sheet with n columns and r rows is cleaned to at most
    (n / 2) * r rows: one per row under each of the n / 2 period columns
    that remain beside the country column, less those dropped. *)
Theorem cleaning_dataframe_length (pd : Pandas) (df : DataFrame)
        (out : list Observation) :
  cleaning_dataframe pd df = Ok out ->
  length out <= (length (columns df) / 2) * length (data df).
Proof.
  intros H.
  destruct (cleaning_dataframe_inv pd df out H) as [p [[_ [_ Hp]] [_ ->]]].
  assert (Hlt : p < length (retained df)).
  { rewrite <- header_length.
    apply (proj1 (get_indexer_In "Country" (header df) p)). rewrite Hp. now left. }
  unfold dropna. etransitivity; [apply filter_length_le|].
  now rewrite length_long_table, length_periods.
Qed.

Lemma cleaning_dataframe_length_witness :
  length [fr_2020_01; de_2020_02]
  <= (length (columns scenario_sheet) / 2) * length (data scenario_sheet).
Proof.
  apply (cleaning_dataframe_length sample_pandas scenario_sheet).
  reflexivity.
Defined.

Lemma repeat_each_app {A : Type} (l1 l2 : list A) (n : nat) :
  repeat_each (l1 ++ l2) n = repeat_each l1 n ++ repeat_each l2 n.
Proof. unfold repeat_each. apply flat_map_app. Qed.

Lemma to_datetime_first_failure (pd : Pandas) (format : option string)
      (before after : list string) (s : string) (err : exn) :
  (forall x, In x before -> parses pd format x = true) ->
  to_datetime_label pd format s = Raise err ->
  mapM (to_datetime_label pd format) (before ++ s :: after) = Raise err.
Proof.
  intros Hbefore Hs.
  induction before as [|x before IH]; cbn [app mapM].
  - now rewrite Hs.
  - destruct (proj1 (parses_Ok pd format x) (Hbefore x (or_introl eq_refl))) as [t Ht].
    rewrite Ht. cbn [bind]. rewrite IH; [reflexivity|].
    intros y Hy. apply Hbefore. now right.
Qed.

(** X12: the exception comes from the leftmost period label that cannot be
    converted.  With well-formed headers and at least one row, if the labels
    of the period columns to the left of the column [i] can be converted
    under the format of the sheet and the label of [i] cannot, the cleaner
    raises a ValueError when a format was guessed from the first label, and
    the date parsing error of the label of [i] when none was. *)
Theorem cleaning_dataframe_first_bad_label (pd : Pandas) (df : DataFrame)
        (p i : nat) (before after : list nat) :
  well_formed_headers df p ->
  data df <> [] ->
  periods df p = before ++ i :: after ->
  (forall j, In j before ->
             parses pd (sheet_format pd df p) (nth j (columns df) "") = true) ->
  parses pd (sheet_format pd df p) (nth i (columns df) "") = false ->
  cleaning_dataframe pd df
  = Raise (match sheet_format pd df p with
           | Some _ => ValueError
           | None => DateParseError (nth i (columns df) "")
           end).
Proof.
  intros [Hne [Hval Hp]] Hdata Hsplit Hbefore Hi.
  rewrite cleaning_dataframe_wide by assumption.
  destruct (melt_wide pd df p Hval Hp) as [long [Hmelt [Hvar _]]].
  rewrite Hmelt. cbn [bind]. rewrite Hvar.
  unfold to_datetime. fold (sheet_format pd df p).
  remember (sheet_format pd df p) as format eqn:Hformat.
  unfold parses in Hi.
  destruct (to_datetime_label pd format (nth i (columns df) "")) as [t|err] eqn:Herr;
    [discriminate|].
  unfold melted_labels. rewrite Hsplit, map_app, repeat_each_app.
  cbn [map]. unfold repeat_each at 2. cbn [flat_map].
  destruct (data df) as [|row rows]; [contradiction|].
  cbn [length repeat app].
  rewrite (to_datetime_first_failure pd format _ _ _ err); [| |assumption].
  - cbn [bind].
    destruct (to_datetime_label_Raise pd _ _ _ Herr) as [[H1 ->] | [-> ->]].
    + now destruct format.
    + reflexivity.
  - intros x Hx. apply in_repeat_each in Hx as [Hx _].
    apply in_map_iff in Hx as [j [<- Hj]]. now apply Hbefore.
Qed.

Lemma cleaning_dataframe_first_bad_label_witness :
  cleaning_dataframe sample_pandas mixed_labels_sheet = Raise ValueError.
Proof.
  refine (cleaning_dataframe_first_bad_label sample_pandas mixed_labels_sheet 0 3 [1] [5]
            _ _ eq_refl _ eq_refl).
  - repeat split. discriminate.
  - discriminate.
  - intros j Hj. destruct Hj as [<- | []]. reflexivity.
Defined.

(** * Further properties of the classifier *)

Lemma string_app_nil (s : string) : (s ++ "")%string = s.
Proof. induction s as [|c s IH]; simpl; [reflexivity | now rewrite IH]. Qed.

Lemma trailing_token_self (tok : string) : solid tok -> trailing_token tok tok.
Proof.
  intros H. split; [assumption|]. exists EmptyString.
  split; [reflexivity|]. left. now rewrite string_app_nil.
Qed.

(** X13: the category of a sheet name depends on its trailing token only:
    it is the category of the token taken as a name, so that two names with
    the same trailing token fall in the same category. *)
Theorem map_sheet_to_category_of_token (s tok : string) :
  trailing_token s tok ->
  map_sheet_to_category s = map_sheet_to_category tok.
Proof.
  intros H. unfold map_sheet_to_category.
  rewrite (last_item_trailing_token s tok H).
  now rewrite (last_item_trailing_token tok tok (trailing_token_self tok (proj1 H))).
Qed.

Lemma map_sheet_to_category_of_token_witness :
  map_sheet_to_category "Feuille de calcul 23" = map_sheet_to_category "23".
Proof.
  apply map_sheet_to_category_of_token.
  split; [split; [discriminate | reflexivity]|].
  exists EmptyString. split; [reflexivity|]. right.
  exists "Feuille de calcul", " "%char. split; reflexivity.
Defined.

Lemma digit_value_nonneg (c : ascii) (d : Z) : digit_value c = Some d -> (0 <= d)%Z.
Proof.
  unfold digit_value. destruct (_ && _)%bool; [|discriminate].
  intros [= <-]. lia.
Qed.

Lemma int_digits_nonneg (s : string) :
  forall acc b n, (0 <= acc)%Z -> int_digits s acc b = Ok n -> (0 <= n)%Z.
Proof.
  induction s as [|c s IH]; intros acc b n Hacc H; simpl in H.
  - destruct b; [injection H as <-; assumption | discriminate].
  - destruct (digit_value c) as [d|] eqn:Ed.
    + apply (IH (10 * acc + d)%Z true n); [|exact H].
      pose proof (digit_value_nonneg c d Ed). lia.
    + destruct (Ascii.eqb c "_" && b)%bool; [|discriminate].
      now apply (IH _ _ _ Hacc H).
Qed.

(** X14: a sheet whose trailing token starts with a minus sign is never put
    in Food, Housing & Energy or Transport: a negative index or zero is in
    no range, and a token that is no integer is Other as well. *)
Theorem map_sheet_to_category_negative (s tok : string) :
  trailing_token s (String "-"%char tok) ->
  map_sheet_to_category s = "Other".
Proof.
  intros H. unfold map_sheet_to_category.
  rewrite (last_item_trailing_token _ _ H). cbn [bind].
  unfold int_of_str.
  destruct (max_str_digits <? count_digits (String "-"%char tok))%Z; [reflexivity|].
  destruct (int_digits tok 0 false) as [n|e] eqn:E; [|reflexivity].
  cbn [bind try_except].
  pose proof (int_digits_nonneg tok 0 false n ltac:(lia) E) as Hn.
  unfold SHEETS_INDEX_FOOD, SHEETS_INDEX_HOUSING_ENERGY, SHEETS_INDEX_TRANSPORT, in_range.
  destruct (Z.leb_spec 1 (- n)); [lia|].
  destruct (Z.leb_spec 76 (- n)); [lia|].
  destruct (Z.leb_spec 109 (- n)); [lia|]. reflexivity.
Qed.

Lemma map_sheet_to_category_negative_witness :
  map_sheet_to_category "Sheet -23" = "Other".
Proof.
  apply (map_sheet_to_category_negative "Sheet -23" "23").
  split; [split; [discriminate | reflexivity]|].
  exists EmptyString. split; [reflexivity|]. right.
  exists "Sheet", " "%char. split; reflexivity.
Defined.

Ltac read_digit :=
  cbn [NilEmpty.string_of_uint int_digits];
  match goal with
  | |- context [digit_value ?c] =>
      let v := eval cbv in (digit_value c) in change (digit_value c) with v
  end;
  cbv iota.

Lemma int_digits_uint_acc (d : Decimal.uint) :
  forall (acc : positive) (b : bool),
    b = true \/ d <> Decimal.Nil ->
    int_digits (NilEmpty.string_of_uint d) (Zpos acc) b
    = Ok (Zpos (Pos.of_uint_acc d acc)).
Proof.
  induction d; intros acc b Hb;
    try (read_digit; cbn [Pos.of_uint_acc];
         rewrite <- (IHd _ true) by (now left);
         f_equal; lia).
  destruct Hb as [-> | Hb]; [reflexivity | contradiction].
Qed.

Lemma int_digits_uint (d : Decimal.uint) :
  forall b : bool,
    b = true \/ d <> Decimal.Nil ->
    int_digits (NilEmpty.string_of_uint d) 0 b = Ok (Z.of_N (Pos.of_uint d)).
Proof.
  induction d; intros b Hb;
    try (read_digit; cbn [Pos.of_uint Z.mul Z.add Z.of_N];
         first [ apply IHd; now left
               | apply int_digits_uint_acc; now left ]).
  destruct Hb as [-> | Hb]; [reflexivity | contradiction].
Qed.

Lemma uint_digits_solid (d : Decimal.uint) :
  all_chars (fun c => negb (isspace c)) (NilEmpty.string_of_uint d) = true.
Proof.
  induction d; cbn [NilEmpty.string_of_uint all_chars]; try rewrite IHd; reflexivity.
Qed.

Lemma decimal_uint (n : Z) :
  decimal n = NilEmpty.string_of_uint (N.to_uint (Z.to_N n)) /\
  N.to_uint (Z.to_N n) <> Decimal.Nil.
Proof.
  unfold decimal, NilZero.string_of_uint.
  destruct (Z.to_N n) as [|q]; [split; [reflexivity | discriminate]|].
  cbn [N.to_uint].
  pose proof (DecimalPos.Unsigned.to_uint_nonnil q) as Hq.
  split; [|assumption]. now destruct (Pos.to_uint q).
Qed.

Lemma int_of_str_uint (d : Decimal.uint) :
  d <> Decimal.Nil ->
  (count_digits (NilEmpty.string_of_uint d) <= max_str_digits)%Z ->
  int_of_str (NilEmpty.string_of_uint d)
  = int_digits (NilEmpty.string_of_uint d) 0 false.
Proof.
  intros Hd Hcount. unfold int_of_str.
  apply Z.ltb_ge in Hcount. rewrite Hcount.
  destruct d; [contradiction | ..]; reflexivity.
Qed.

(** X15: [int] reads back what [str] writes.  For an index n >= 0 written
    in decimal with at most 4300 digits, [int_of_str] of the numeral is n;
    hence a sheet name that ends in a whitespace character and the numeral
    of n is put in the category of n by the ranges. *)
Theorem map_sheet_to_category_of_numeral (n : Z) :
  (0 <= n)%Z ->
  (count_digits (decimal n) <= max_str_digits)%Z ->
  int_of_str (decimal n) = Ok n /\
  map_sheet_to_category (decimal n) = category_of_index n /\
  forall pre sp,
    isspace sp = true ->
    map_sheet_to_category (pre ++ String sp (decimal n)) = category_of_index n.
Proof.
  intros Hn Hcount.
  destruct (decimal_uint n) as [Hdec Hnil].
  assert (Hint : int_of_str (decimal n) = Ok n).
  { rewrite Hdec in Hcount |- *.
    rewrite int_of_str_uint by assumption.
    rewrite int_digits_uint by (now right).
    change (Pos.of_uint (N.to_uint (Z.to_N n))) with (N.of_uint (N.to_uint (Z.to_N n))).
    rewrite DecimalN.Unsigned.of_to. f_equal. lia. }
  assert (Hsolid : solid (decimal n)).
  { rewrite Hdec. split; [|apply uint_digits_solid].
    destruct (N.to_uint (Z.to_N n)); [contradiction | ..]; discriminate. }
  assert (Hcat : forall s, trailing_token s (decimal n) ->
                           map_sheet_to_category s = category_of_index n).
  { intros s Hs. unfold map_sheet_to_category.
    rewrite (last_item_trailing_token _ _ Hs). cbn [bind]. rewrite Hint.
    reflexivity. }
  split; [assumption | split].
  - apply Hcat. now apply trailing_token_self.
  - intros pre sp Hsp. apply Hcat. split; [assumption|].
    exists EmptyString. split; [reflexivity|]. right.
    exists pre, sp. split; [assumption|]. now rewrite string_app_nil.
Qed.

Lemma map_sheet_to_category_of_numeral_witness :
  map_sheet_to_category ("Sheet" ++ String " "%char (decimal 108)) = "Housing & Energy".
Proof.
  refine (proj2 (proj2 (map_sheet_to_category_of_numeral 108 _ _)) "Sheet" " "%char eq_refl).
  - lia.
  - vm_compute. discriminate.
Defined.

(** * Further properties of the summary loader *)

Lemma mapM_first_failure {A B : Type} (f : A -> result B) (before after : list A)
      (x : A) (e : exn) :
  (forall y, In y before -> exists b, f y = Ok b) ->
  f x = Raise e ->
  mapM f (before ++ x :: after) = Raise e.
Proof.
  intros Hbefore Hx. induction before as [|y before IH]; cbn [app mapM].
  - now rewrite Hx.
  - destruct (Hbefore y (or_introl eq_refl)) as [b Hb]. rewrite Hb. cbn [bind].
    rewrite IH; [reflexivity|]. intros z Hz. apply Hbefore. now right.
Qed.

(** X16: the keys that the summary loader cannot find.  An empty map raises
    an IndexError.  On a sheet with distinct labels, the first key of the
    map, in its order, that is no label of the sheet raises a KeyError that
    names it, be it the key of the filter column or a later one. *)
Theorem load_summary_missing_key :
  (forall df, load_summary df [] = Raise IndexError) /\
  (forall df columns_map before k after,
      NoDup (columns df) ->
      keys columns_map = before ++ k :: after ->
      (forall x, In x before -> In x (columns df)) ->
      ~ In k (columns df) ->
      load_summary df columns_map = Raise (KeyError k)).
Proof.
  split; [reflexivity|].
  intros df columns_map before k after Hnd Hkeys Hbefore Hk.
  unfold load_summary. cbv zeta. rewrite Hkeys.
  destruct before as [|b before]; cbn [app first_item bind].
  - unfold getitem. now rewrite (get_indexer_absent k _ Hk).
  - destruct (get_indexer_unique b _ Hnd (Hbefore b (or_introl eq_refl))) as [j Hj].
    unfold getitem. rewrite Hj. cbn [bind]. unfold loc.
    rewrite (mapM_first_failure _ (b :: before) after k (KeyError k)); [reflexivity | |].
    + intros y Hy. destruct (get_indexer_unique y _ Hnd (Hbefore y Hy)) as [i Hi].
      rewrite Hi. now exists [i].
    + now rewrite (get_indexer_absent k _ Hk).
Qed.

Lemma load_summary_missing_key_witness :
  load_summary summary_sheet [("Unnamed: 1", "sheet_name"); ("Unnamed: 7", "description")]
  = Raise (KeyError "Unnamed: 7").
Proof.
  refine (proj2 load_summary_missing_key summary_sheet
                [("Unnamed: 1", "sheet_name"); ("Unnamed: 7", "description")]
                ["Unnamed: 1"] "Unnamed: 7" [] _ eq_refl _ _).
  - distinct_strings.
  - intros x Hx. cbn in Hx |- *. intuition.
  - cbn. intuition discriminate.
Defined.

Lemma length_select_rows {A : Type} (mask : list bool) (rows : list A) :
  length (select_rows mask rows) <= length rows.
Proof.
  revert rows. induction mask as [|b mask IH]; intros [|r rows]; simpl; try lia.
  specialize (IH rows). destruct b; simpl; lia.
Qed.

(** X17: whatever the summary loader returns is complete and rectangular:
    no cell of it is missing, every row has one cell per column, and it has
    no more rows than the sheet, also when the rows of the sheet are
    ragged. *)
Theorem load_summary_complete (df : DataFrame) (columns_map : dict) (out : DataFrame) :
  load_summary df columns_map = Ok out ->
  Forall (fun row => existsb isna row = false /\ length row = length (columns out))
         (data out) /\
  length (data out) <= length (data df).
Proof.
  unfold load_summary, loc. cbv zeta.
  destruct (first_item (keys columns_map)) as [first|]; [|discriminate].
  cbn [bind]. destruct (getitem first df) as [key_column|]; [|discriminate].
  cbn [bind]. destruct (mapM _ (keys columns_map)) as [idxs|]; [|discriminate].
  cbn [bind]. intros [= <-].
  unfold rename, reset_index, dropna_frame. cbn [columns data]. split.
  - apply Forall_forall. intros row Hrow.
    apply filter_In in Hrow as [Hrow Hna]. apply negb_true_iff in Hna.
    split; [assumption|].
    apply in_map_iff in Hrow as [r [<- _]]. now rewrite !length_map.
  - etransitivity; [apply filter_length_le|]. rewrite length_map.
    apply length_select_rows.
Qed.

Lemma load_summary_complete_witness :
  Forall (fun row => existsb isna row = false /\ length row = 3)
         [ [CStr "Sheet 1"; CStr "2015=100"; CStr "All-items HICP"];
           [CStr "Sheet 3"; CStr "2015=100"; CStr "Bread and cereals"] ] /\
  2 <= 4.
Proof.
  exact (load_summary_complete summary_sheet main_columns_map
           {| columns := ["sheet_name"; "base"; "description"];
              data := [ [CStr "Sheet 1"; CStr "2015=100"; CStr "All-items HICP"];
                        [CStr "Sheet 3"; CStr "2015=100"; CStr "Bread and cereals"] ] |}
           eq_refl).
Defined.
